(** * Verification of scripts/classify_documents.py

    Shallow embedding of the document classifier: the rule engine
    ([classify_document]), the metadata extractors, the index client
    ([search_documents], [update_documents_batch]) and the orchestrator
    ([run_classification]).

    Python's [re] module is modelled by a backtracking matcher for the
    subset of the regular-expression syntax that the source patterns use;
    patterns are kept as the source's strings and parsed by [Re.compile].
    Strings are ASCII ([Stdlib.String.string]). *)

From Stdlib Require Import String Ascii List ZArith Lia Bool.
From Stdlib Require Import DecimalString Sorted Permutation.
From stdpp Require Import gmap strings.
Import ListNotations.
Open Scope list_scope.

(* ================================================================== *)
(** ** Python's [re] module, restricted to the syntax of the source     *)
(* ================================================================== *)

Module Re.

(** ASCII [str.lower]. *)
Definition lower_char (c : ascii) : ascii :=
  let n := nat_of_ascii c in
  if (65 <=? n) && (n <=? 90) then ascii_of_nat (n + 32) else c.

Definition is_digit (c : ascii) : bool :=
  let n := nat_of_ascii c in (48 <=? n) && (n <=? 57).

(** [\s] on str patterns: the characters for which [str.isspace] holds
    (ASCII part: tab, newline, vertical tab, form feed, carriage return,
    the separators 0x1c..0x1f and space). *)
Definition is_space (c : ascii) : bool :=
  let n := nat_of_ascii c in
  ((9 <=? n) && (n <=? 13)) || ((28 <=? n) && (n <=? 32)).

Definition newline : ascii := ascii_of_nat 10.

(** One item of a character class [[...]]. *)
Inductive citem : Type :=
| CChar (c : ascii)
| CDigit
| CSpace.

Inductive regex : Type :=
| RChar (c : ascii)                    (* literal character *)
| RAny                                 (* . (no DOTALL) *)
| RClass (neg : bool) (items : list citem)  (* [..], [^..], \d, \s *)
| RBol                                 (* ^ (no MULTILINE) *)
| REol                                 (* $ *)
| REps
| RSeq (r1 r2 : regex)
| RAlt (r1 r2 : regex)                 (* | ; also r? = (r|) *)
| RStar (r : regex)                    (* greedy *; r+ = r r* *)
| RGroup (r : regex)                   (* capturing group 1 *)
| RNegLook (r : regex).                (* (?!r) *)

(** Membership with [re.IGNORECASE]: characters are compared lower-cased. *)
Definition citem_mem (x : ascii) (it : citem) : bool :=
  match it with
  | CChar c => Ascii.eqb (lower_char c) (lower_char x)
  | CDigit => is_digit x
  | CSpace => is_space x
  end.

Definition class_mem (items : list citem) (x : ascii) : bool :=
  existsb (citem_mem x) items.

(** The span of group 1, if it took part in the match. *)
Definition caps := option (nat * nat).

(** The greedy repetition loop of [r*], given the matcher [mr] of [r]:
    one more round of [r] first, then the continuation.  A round that
    consumes nothing ends the loop, like sre. *)
Fixpoint star_loop
    (mr : nat -> caps -> (nat -> caps -> option (nat * caps)) -> option (nat * caps))
    (k : nat -> caps -> option (nat * caps)) (n i : nat) (c : caps)
  : option (nat * caps) :=
  match n with
  | O => k i c
  | S n' =>
      match mr i c (fun j c' => if Nat.ltb i j then star_loop mr k n' j c' else None) with
      | Some x => Some x
      | None => k i c
      end
  end.

(** Backtracking matcher in continuation-passing style: [m w r i c k]
    tries the alternatives of [r] at position [i] of the subject [w] in
    Python's priority order (greedy first) and passes each end position
    to [k]; the first answer of [k] wins.  Each round of [RStar]
    consumes a character, so [S (length w - i)] rounds always suffice. *)
Fixpoint m (w : list ascii) (r : regex) (i : nat) (c : caps)
         (k : nat -> caps -> option (nat * caps)) {struct r}
  : option (nat * caps) :=
  match r with
  | RChar a =>
      match nth_error w i with
      | Some x => if Ascii.eqb (lower_char x) (lower_char a) then k (S i) c else None
      | None => None
      end
  | RAny =>
      match nth_error w i with
      | Some x => if Ascii.eqb x newline then None else k (S i) c
      | None => None
      end
  | RClass neg items =>
      match nth_error w i with
      | Some x => if xorb neg (class_mem items x) then k (S i) c else None
      | None => None
      end
  | RBol => if Nat.eqb i 0 then k i c else None
  | REol =>
      if Nat.eqb i (length w)
         || (Nat.eqb (S i) (length w)
             && match nth_error w i with
                | Some x => Ascii.eqb x newline | None => false end)
      then k i c else None
  | REps => k i c
  | RSeq r1 r2 => m w r1 i c (fun j c' => m w r2 j c' k)
  | RAlt r1 r2 =>
      match m w r1 i c k with
      | Some x => Some x
      | None => m w r2 i c k
      end
  | RStar r1 => star_loop (m w r1) k (S (length w - i)) i c
  | RGroup r1 => m w r1 i c (fun j _ => k j (Some (i, j)))
  | RNegLook r1 =>
      match m w r1 i c (fun j c' => Some (j, c')) with
      | Some _ => None
      | None => k i c
      end
  end.

(** A match object: start, end and the span of group 1. *)
Definition match_obj := (nat * nat * caps)%type.

Fixpoint search_from (w : list ascii) (r : regex) (i : nat) (n : nat)
  : option match_obj :=
  match n with
  | O => None
  | S n' =>
      match m w r i None (fun j c => Some (j, c)) with
      | Some (j, c) => Some (i, j, c)
      | None => search_from w r (S i) n'
      end
  end.

(** [re.search] tries every start position 0 .. len(w). *)
Definition search_re (r : regex) (s : string) : option match_obj :=
  let w := list_ascii_of_string s in search_from w r 0 (S (length w)).

(** ** Parser for the pattern syntax *)

Definition ceq (a b : ascii) : bool := Ascii.eqb a b.

(** Escapes: [\d], [\s] and escaped punctuation; other letters are not
    supported (parse failure). *)
Definition escape_item (e : ascii) : option citem :=
  if ceq e "d" then Some CDigit
  else if ceq e "s" then Some CSpace
  else if is_digit e || (let n := nat_of_ascii (lower_char e) in
                         (97 <=? n) && (n <=? 122))
  then None else Some (CChar e).

Fixpoint p_class (s : list ascii) : option (list citem * list ascii) :=
  match s with
  | [] => None
  | c :: s' =>
      if ceq c "]" then Some ([], s')
      else if ceq c "-" then None   (* ranges are not supported *)
      else if ceq c "\" then
        match s' with
        | e :: s'' =>
            match escape_item e, p_class s'' with
            | Some it, Some (its, rest) => Some (it :: its, rest)
            | _, _ => None
            end
        | [] => None
        end
      else match p_class s' with
           | Some (its, rest) => Some (CChar c :: its, rest)
           | None => None
           end
  end.

Definition item_regex (it : citem) : regex :=
  match it with
  | CChar c => RChar c
  | _ => RClass false [it]
  end.

Definition expect_close (res : option (regex * list ascii)) (f : regex -> regex)
  : option (regex * list ascii) :=
  match res with
  | Some (r, c :: rest) => if ceq c ")" then Some (f r, rest) else None
  | _ => None
  end.

Fixpoint p_alt (n : nat) (s : list ascii) : option (regex * list ascii) :=
  match n with
  | O => None
  | S n =>
      match p_seq n s with
      | Some (r, c :: s') =>
          if ceq c "|" then
            match p_alt n s' with
            | Some (r2, s'') => Some (RAlt r r2, s'')
            | None => None
            end
          else Some (r, c :: s')
      | res => res
      end
  end
with p_seq (n : nat) (s : list ascii) : option (regex * list ascii) :=
  match n with
  | O => None
  | S n =>
      match s with
      | [] => Some (REps, [])
      | c :: _ =>
          if ceq c "|" || ceq c ")" then Some (REps, s)
          else match p_quant n s with
               | Some (a, s') =>
                   match p_seq n s' with
                   | Some (r, s'') => Some (RSeq a r, s'')
                   | None => None
                   end
               | None => None
               end
      end
  end
with p_quant (n : nat) (s : list ascii) : option (regex * list ascii) :=
  match n with
  | O => None
  | S n =>
      match p_atom n s with
      | Some (a, q :: s') =>
          if ceq q "*" then Some (RStar a, s')
          else if ceq q "+" then Some (RSeq a (RStar a), s')
          else if ceq q "?" then Some (RAlt a REps, s')
          else Some (a, q :: s')
      | res => res
      end
  end
with p_atom (n : nat) (s : list ascii) : option (regex * list ascii) :=
  match n with
  | O => None
  | S n =>
      match s with
      | [] => None
      | c :: s' =>
          if ceq c "(" then
            match s' with
            | q :: x :: s'' =>
                if ceq q "?" then
                  if ceq x ":" then expect_close (p_alt n s'') (fun r => r)
                  else if ceq x "!" then expect_close (p_alt n s'') RNegLook
                  else None
                else expect_close (p_alt n s') RGroup
            | _ => expect_close (p_alt n s') RGroup
            end
          else if ceq c "[" then
            match s' with
            | x :: s'' =>
                if ceq x "^" then
                  match p_class s'' with
                  | Some (its, rest) => Some (RClass true its, rest)
                  | None => None
                  end
                else match p_class s' with
                     | Some (its, rest) => Some (RClass false its, rest)
                     | None => None
                     end
            | [] => None
            end
          else if ceq c "." then Some (RAny, s')
          else if ceq c "^" then Some (RBol, s')
          else if ceq c "$" then Some (REol, s')
          else if ceq c "\" then
            match s' with
            | e :: s'' =>
                match escape_item e with
                | Some it => Some (item_regex it, s'')
                | None => None
                end
            | [] => None
            end
          else if ceq c ")" || ceq c "|" || ceq c "*" || ceq c "+" || ceq c "?"
                  || ceq c "]" || ceq c "{"
          then None
          else Some (RChar c, s')
      end
  end.

(** [re.compile]; [None] for a pattern outside the supported syntax. *)
Definition compile (p : string) : option regex :=
  let s := list_ascii_of_string p in
  match p_alt (4 * length s + 4) s with
  | Some (r, []) => Some r
  | _ => None
  end.

(** [re.search(p, s, re.IGNORECASE)] on a str subject. *)
Definition search (p : string) (s : string) : option match_obj :=
  match compile p with
  | Some r => search_re r s
  | None => None
  end.

Definition matches (p : string) (s : string) : bool :=
  match search p s with Some _ => true | None => false end.

(** [match.group(1)]. *)
Definition group1 (s : string) (mo : match_obj) : option string :=
  match mo with
  | (_, _, Some (a, b)) =>
      Some (string_of_list_ascii (firstn (b - a) (skipn a (list_ascii_of_string s))))
  | _ => None
  end.

End Re.

(* ================================================================== *)
(** ** Matcher measures *)
(* ================================================================== *)

Module ReAux.
Import Re.

(** Least number of characters a match of [r] consumes. *)
Fixpoint minlen (r : regex) : nat :=
  match r with
  | RChar _ | RAny | RClass _ _ => 1
  | RBol | REol | REps | RStar _ | RNegLook _ => 0
  | RSeq r1 r2 => minlen r1 + minlen r2
  | RAlt r1 r2 => Nat.min (minlen r1) (minlen r2)
  | RGroup r1 => minlen r1
  end.

(** Every capturing group has a body that consumes a character. *)
Fixpoint group_ok (r : regex) : bool :=
  match r with
  | RGroup r1 => (1 <=? minlen r1) && group_ok r1
  | RSeq r1 r2 | RAlt r1 r2 => group_ok r1 && group_ok r2
  | RStar r1 => group_ok r1
  | _ => true
  end.

(** Group 1 takes part in every match of [r]. *)
Fixpoint sets_group (r : regex) : bool :=
  match r with
  | RGroup _ => true
  | RSeq r1 r2 => sets_group r1 || sets_group r2
  | RAlt r1 r2 => sets_group r1 && sets_group r2
  | _ => false
  end.

Definition caps_inv (w : list ascii) (c : caps) : Prop :=
  forall a b, c = Some (a, b) -> a < b <= length w.

(** A pattern that compiles to a regex whose group always takes part and
    consumes a character yields a non-empty [group(1)] on every match. *)
Definition capturing (p : string) : bool :=
  match compile p with
  | Some r => group_ok r && sets_group r
  | None => false
  end.

End ReAux.

(* ================================================================== *)
(** ** Python values and string methods used by the script            *)
(* ================================================================== *)

(** Exceptions the modelled code can raise.  [NoFuel] is not a Python
    exception: it marks a [while] loop that did not stop within the bound
    given to the model (see [run_classification]). *)
Inductive exc : Type :=
| TypeError
| ValueError
| AttributeError
| JSONDecodeError
| NoFuel.

(** A [str] argument that may be [None]. *)
Definition pystr := option string.

(** Truthiness of an optional str: [None] and [''] are falsy. *)
Definition truthy (s : pystr) : bool :=
  match s with
  | Some x => negb (String.eqb x "")
  | None => false
  end.

(** [str(x)] as used by an f-string. *)
Definition py_format (s : pystr) : string :=
  match s with Some x => x | None => "None" end.

(** [a or b] on optional strs. *)
Definition py_or (a b : pystr) : pystr := if truthy a then a else b.

Definition str_lower (s : string) : string :=
  string_of_list_ascii (map Re.lower_char (list_ascii_of_string s)).

Definition startswith (s pre : string) : bool := String.prefix pre s.

(** [str.replace(old, new)] for [old = '%20'], [new = ' '], left to right. *)
Fixpoint replace_pct20 (s : list ascii) : list ascii :=
  match s with
  | a :: ((b :: c :: rest) as tl) =>
      if Re.ceq a "%" && Re.ceq b "2" && Re.ceq c "0"
      then " "%char :: replace_pct20 rest
      else a :: replace_pct20 tl
  | _ => s
  end.

(** [re.sub(r'\s+', ' ', s)]: every maximal run of [\s] becomes one space.
    [in_run] records that the previous character was whitespace. *)
Fixpoint sub_spaces (in_run : bool) (s : list ascii) : list ascii :=
  match s with
  | [] => []
  | c :: rest =>
      if Re.is_space c
      then (if in_run then sub_spaces true rest else " "%char :: sub_spaces true rest)
      else c :: sub_spaces false rest
  end.

Fixpoint lstrip (s : list ascii) : list ascii :=
  match s with
  | c :: rest => if Re.is_space c then lstrip rest else s
  | [] => []
  end.

(** [str.strip()]. *)
Definition strip (s : list ascii) : list ascii := rev (lstrip (rev (lstrip s))).

(** [re.search(pattern, text, re.IGNORECASE)] where [text] may be [None]:
    searching [None] raises [TypeError]. *)
Definition re_search (p : string) (text : pystr) : exc + option Re.match_obj :=
  match text with
  | Some s => inr (Re.search p s)
  | None => inl TypeError
  end.

(* ================================================================== *)
(** ** Classification rules (CLASSIFICATION_RULES)                     *)
(* ================================================================== *)

Record rule : Type := mk_rule {
  category : string;
  access_level : string;
  path_patterns : list string;   (* rule['patterns']['path'] *)
  name_patterns : list string    (* rule['patterns']['name'] *)
}.

Definition CLASSIFICATION_RULES : list rule := [
  (* OWNER DOCUMENTS - owner_only access *)
  mk_rule "owner_statement" "owner_only"
    ["/Statement/"; "/Statements/"; "/Billing/"]
    ["^\d+.*statement"; "statement.*\.pdf$"; "^R\d+L\d+"];
  mk_rule "owner_ledger" "owner_only"
    ["/Ledger/"; "/Account History/"]
    ["ledger"; "account.*history"];
  mk_rule "owner_letter" "owner_only"
    ["/Owner Letters/"; "/Homeowner Letters/"]
    ["letter.*to.*"; "demand.*letter"; "collection.*letter"; "notice.*to.*owner"];
  mk_rule "owner_arc_submission" "arc_review"
    ["/ARC.*Submission/"; "/ARC.*Application/"; "/Architectural.*Request/"]
    ["arc.*application"; "arc.*request"; "architectural.*submission"];
  (* GOVERNING DOCUMENTS - community_public access *)
  mk_rule "governing_ccr" "community_public"
    ["/Govern/"; "/Governing/"; "/CCR/"]
    ["ccr"; "cc&r"; "covenants?"; "declaration"; "deed.*restriction"; "restrictions"];
  mk_rule "governing_bylaws" "community_public"
    ["/Govern/"; "/Governing/"; "/Bylaws/"]
    ["bylaw"; "by-law"; "by\s+law"];
  mk_rule "governing_rules" "community_public"
    ["/Govern/"; "/Governing/"; "/Rules/"]
    ["rules?.*regulation"; "regulation"; "policies"; "policy(?!.*insurance)"; "guidelines?(?!.*arc)"];
  mk_rule "governing_arc_guidelines" "community_public"
    ["/ARC/"; "/Architectural/"; "/Design/"]
    ["arc.*guide"; "architectural.*guide"; "architectural.*standard"; "design.*guide"; "design.*standard"];
  (* COMMUNITY DOCUMENTS - community_public access (except directory) *)
  mk_rule "community_minutes" "community_public"
    ["/Minutes/"; "/Meeting Minutes/"; "/Board Meeting/"]
    ["minutes"; "meeting.*notes"; "board.*meeting"];
  mk_rule "community_newsletter" "community_public"
    ["/Newsletter/"; "/Communications/"]
    ["newsletter"; "bulletin"; "community.*update"];
  mk_rule "community_announcement" "community_public"
    ["/Notices/"; "/Announcements/"]
    ["announcement"; "notice(?!.*violation)"; "alert"; "advisory"];
  mk_rule "community_directory" "board_only"
    ["/Directory/"; "/Contact/"]
    ["directory"; "contact.*list"; "phone.*list"; "resident.*list"];
  (* BOARD DOCUMENTS - board_only access *)
  mk_rule "board_financial" "board_only"
    ["/Financial/"; "/Budget/"; "/Audit/"; "/Reserve/"]
    ["budget"; "financial.*statement"; "balance.*sheet"; "income.*statement";
     "audit"; "reserve.*study"; "reserve.*analysis"; "bank.*statement"];
  mk_rule "board_delinquency" "board_only"
    ["/Delinquency/"; "/Collections/"; "/Aging/"]
    ["delinquen"; "aging.*report"; "collection.*report"; "past.*due"];
  mk_rule "board_insurance" "board_only"
    ["/Insurance/"]
    ["insurance.*polic"; "certificate.*insurance"; "coi"; "coverage"; "liability.*policy"];
  mk_rule "board_contracts" "board_only"
    ["/Contract/"; "/Agreement/"; "/Service Agreement/"]
    ["contract"; "agreement(?!.*arc)"; "service.*contract"; "maintenance.*agreement"];
  mk_rule "board_legal" "board_only"
    ["/Legal/"; "/Attorney/"; "/Litigation/"]
    ["legal"; "attorney"; "lawsuit"; "litigation"; "lien(?!.*release)"; "judgment"; "court"];
  (* STAFF DOCUMENTS - staff_only access *)
  mk_rule "staff_bids" "staff_only"
    ["/Bid/"; "/Bids/"; "/Proposal/"; "/Proposals/"; "/Quote/"]
    ["bid"; "proposal"; "estimate"; "quote"; "pricing"];
  mk_rule "staff_violations" "staff_only"
    ["/Violation/"; "/Compliance/"]
    ["violation"; "compliance.*notice"; "warning.*letter"; "fine.*notice"];
  mk_rule "staff_work_orders" "staff_only"
    ["/Work.*Order/"; "/Maintenance.*Request/"; "/Service.*Request/"]
    ["work.*order"; "service.*request"; "maintenance.*request"; "repair.*request"];
  mk_rule "staff_correspondence" "staff_only"
    ["/Internal/"; "/Staff.*Notes/"; "/Correspondence/"]
    ["internal.*memo"; "staff.*note"; "correspondence(?!.*owner)"];
  mk_rule "staff_vendor" "staff_only"
    ["/Vendor/"; "/W9/"; "/W-9/"]
    ["w-?9"; "vendor.*info"; "vendor.*contact"; "vendor.*setup"]
].

Definition COMMUNITY_PATTERNS : list string := [
  "/(?:Round Rock|North Austin|South Austin) Office/([^/]+)/";
  "/sites/AssociationDocs/([^/]+)/"
].

Definition OWNER_ACCOUNT_PATTERNS : list string := [
  "^(R\d+L\d+)";
  "Account[:\s#]*(\d+)";
  "Acct[:\s#]*(\d+)"
].

(* ================================================================== *)
(** ** classify_document                                                *)
(* ================================================================== *)

(** [for pattern in patterns: if re.search(pattern, s, re.I): matched = True; break] *)
Fixpoint any_pattern_hit (patterns : list string) (s : string) : bool :=
  match patterns with
  | [] => false
  | p :: ps => if Re.matches p s then true else any_pattern_hit ps s
  end.

(** One iteration of the rule loop: path patterns first, name patterns
    only when no path pattern matched. *)
Definition rule_matched (r : rule) (path_lower name_lower : string) : bool :=
  let matched := any_pattern_hit (path_patterns r) path_lower in
  if negb matched then any_pattern_hit (name_patterns r) name_lower else matched.

Fixpoint first_match (rules : list rule) (path_lower name_lower : string)
  : string * string :=
  match rules with
  | [] => ("uncategorized", "staff_only")   (* Default: uncategorized, staff only *)
  | r :: rs =>
      if rule_matched r path_lower name_lower
      then (category r, access_level r)
      else first_match rs path_lower name_lower
  end.

(** [x.lower() if x else ''] *)
Definition lower_or_empty (s : pystr) : string :=
  match s with
  | Some x => if truthy s then str_lower x else ""
  | None => ""
  end.

Definition classify_document (path name : pystr) : string * string :=
  first_match CLASSIFICATION_RULES (lower_or_empty path) (lower_or_empty name).

(* ================================================================== *)
(** ** Metadata extractors                                              *)
(* ================================================================== *)

(** The clean-up of a captured community name. *)
Definition clean_community (community : string) : string :=
  string_of_list_ascii
    (strip (sub_spaces false (replace_pct20 (list_ascii_of_string community)))).

(** [for pattern in patterns: match = re.search(...); if match: ...; return]
    over a non-None text. *)
Fixpoint first_search (patterns : list string) (text : string)
  : option Re.match_obj :=
  match patterns with
  | [] => None
  | p :: ps =>
      match Re.search p text with
      | Some mo => Some mo
      | None => first_search ps text
      end
  end.

Definition extract_community_name (path : pystr) : exc + pystr :=
  if negb (truthy path) then inr None
  else
    let text := py_format path in
    match first_search COMMUNITY_PATTERNS text with
    | Some mo =>
        match Re.group1 text mo with
        | Some community => inr (Some (clean_community community))
        | None => inl AttributeError   (* None.replace(...) *)
        end
    | None => inr None
    end.

(** The loop over OWNER_ACCOUNT_PATTERNS; [re.search] on a [None] text
    raises at the first pattern. *)
Fixpoint owner_account_loop (patterns : list string) (text : pystr)
  : exc + pystr :=
  match patterns with
  | [] => inr None
  | p :: ps =>
      match re_search p text with
      | inl e => inl e
      | inr (Some mo) => inr (Re.group1 (py_format text) mo)
      | inr None => owner_account_loop ps text
      end
  end.

Definition extract_owner_account (name path : pystr) : exc + pystr :=
  let text := if truthy path
              then Some (py_format name ++ " " ++ py_format path)%string
              else name in
  owner_account_loop OWNER_ACCOUNT_PATTERNS text.

(* ================================================================== *)
(** ** The spec's flat reading of the rule table *)
(* ================================================================== *)

(** The spec's reading of a rule: matched when some path pattern matches
    the path or some name pattern matches the name, with no staging. *)
Definition rule_matches_flat (r : rule) (path_lower name_lower : string) : bool :=
  existsb (fun p => Re.matches p path_lower) (path_patterns r)
  || existsb (fun p => Re.matches p name_lower) (name_patterns r).

Fixpoint first_match_flat (rules : list rule) (path_lower name_lower : string)
  : string * string :=
  match rules with
  | [] => ("uncategorized", "staff_only")
  | r :: rs =>
      if rule_matches_flat r path_lower name_lower
      then (category r, access_level r)
      else first_match_flat rs path_lower name_lower
  end.

Definition classify_flat (path name : pystr) : string * string :=
  first_match_flat CLASSIFICATION_RULES (lower_or_empty path) (lower_or_empty name).

(** No pattern of any rule matches: a decidable form of the hypothesis. *)
Definition no_pattern_matches (rules : list rule) (pl nl : string) : bool :=
  forallb (fun r => forallb (fun p => negb (Re.matches p pl)) (path_patterns r)
                    && forallb (fun p => negb (Re.matches p nl)) (name_patterns r)) rules.

(** Whether no rule declared before index [i] matches. *)
Definition none_before (rules : list rule) (i : nat) (pl nl : string) : bool :=
  forallb (fun r => negb (rule_matched r pl nl)) (firstn i rules).

(* ================================================================== *)
(** ** Index records and responses                                      *)
(* ================================================================== *)

(** A field of a search-result record: absent, JSON null, or a str. *)
Inductive field : Type :=
| FAbsent
| FNull
| FStr (s : string).

(** A record of the projection
    [id,metadata_spo_item_name,metadata_spo_item_path,document_category,community_name]. *)
Record doc : Type := mk_doc {
  doc_id : field;
  metadata_spo_item_name : field;
  metadata_spo_item_path : field;
  document_category : field;
  community_name : field
}.

(** [doc.get(key)]. *)
Definition get (f : field) : pystr :=
  match f with FStr s => Some s | _ => None end.

(** [doc.get(key, '')]: the default only replaces an absent key. *)
Definition get_default (f : field) : pystr :=
  match f with FAbsent => Some "" | FNull => None | FStr s => Some s end.

(** An update dict, in insertion order; a value is a str or [None]. *)
Definition update := list (string * pystr).

(** JSON values of a response body (a dict is an association list). *)
#[warnings="-register-all"]
Inductive json : Type :=
| JNull
| JBool (b : bool)
| JNum (z : Z)
| JStr (s : string)
| JArr (l : list json)
| JObj (kvs : list (string * json)).

Fixpoint assoc {V : Type} (k : string) (kvs : list (string * V)) : option V :=
  match kvs with
  | [] => None
  | (k', v) :: rest => if String.eqb k k' then Some v else assoc k rest
  end.

Definition json_truthy (j : json) : bool :=
  match j with
  | JNull => false
  | JBool b => b
  | JNum z => negb (Z.eqb z 0)
  | JStr s => negb (String.eqb s "")
  | JArr l => negb (Nat.eqb (length l) 0)
  | JObj kvs => negb (Nat.eqb (length kvs) 0)
  end.

(** [for r in v]: lists, strs (their characters) and dicts (their keys)
    are iterable; numbers, booleans and null raise [TypeError]. *)
Definition py_iter (j : json) : option (list json) :=
  match j with
  | JArr l => Some l
  | JStr s => Some (map (fun c => JStr (String c EmptyString)) (list_ascii_of_string s))
  | JObj kvs => Some (map (fun kv => JStr (fst kv)) kvs)
  | _ => None
  end.

(** Search response: status code and, when it decodes, the body's
    [value] and [@odata.count] entries (each possibly missing). *)
Record search_body : Type := mk_search_body {
  sb_value : option (list doc);
  sb_count : option Z
}.

Record http_search : Type := mk_http_search {
  hs_status : Z;
  hs_body : option search_body      (* None: not decodable as JSON *)
}.

Record http_index : Type := mk_http_index {
  hi_status : Z;
  hi_body : option json             (* None: not decodable as JSON *)
}.

(** [search_documents] returns either the bare list [[]] (error path) or
    the pair [(value, count)]. *)
Inductive search_ret : Type :=
| SRBareList
| SRPair (docs : list doc) (count : Z).

(** Tuple unpacking [docs, count = ...]: unpacking [[]] raises. *)
Definition unpack (r : search_ret) : exc + (list doc * Z) :=
  match r with
  | SRBareList => inl ValueError    (* not enough values to unpack *)
  | SRPair d c => inr (d, c)
  end.

(** The part of [update_documents_batch] after the POST. *)
Fixpoint count_status (items : list json) : exc + Z :=
  match items with
  | [] => inr 0%Z
  | JObj kvs :: rest =>
      match count_status rest with
      | inr n =>
          inr (match assoc "status" kvs with
               | Some st => if json_truthy st then (1 + n)%Z else n
               | None => n
               end)
      | inl e => inl e
      end
  | _ :: _ => inl AttributeError      (* r.get on a non-dict *)
  end.

Definition batch_result (n_updates : Z) (resp : http_index) : exc + (Z * Z) :=
  if Z.eqb (hi_status resp) 200 then
    match hi_body resp with
    | None => inl JSONDecodeError
    | Some (JObj kvs) =>
        let v := match assoc "value" kvs with Some v => v | None => JArr [] end in
        match py_iter v with
        | None => inl TypeError
        | Some items =>
            match count_status items with
            | inr succeeded => inr (succeeded, n_updates - succeeded)%Z
            | inl e => inl e
            end
        end
    | Some _ => inl AttributeError    (* result.get on a non-dict *)
    end
  else inr (0%Z, n_updates).

(** RunStats. *)
Record stats : Type := mk_stats {
  processed : Z;
  updated : Z;
  failed : Z;
  by_category : gmap string Z;
  by_access_level : gmap string Z
}.

Definition stats0 : stats := mk_stats 0 0 0 ∅ ∅.

(** [table[key] = table.get(key, 0) + 1] *)
Definition bump (key : string) (t : gmap string Z) : gmap string Z :=
  <[key := (match t !! key with Some n => n | None => 0 end + 1)%Z]> t.

Definition add_counts (st : stats) (succeeded fl : Z) : stats :=
  mk_stats (processed st) (updated st + succeeded) (failed st + fl)
           (by_category st) (by_access_level st).

(** The calls to the index, in order. *)
Inductive event : Type :=
| ESearch (skip top : Z) (unclassified_only : bool) (returned : nat)
| EIndex (batch : list update).

Inductive outcome : Type :=
| NothingToClassify               (* total_count == 0 *)
| Report (st : stats).            (* reached "Print results" *)

(* ================================================================== *)
(** ** Per-document processing (body of [for doc in docs])             *)
(* ================================================================== *)

Section PerDoc.
(** [datetime.utcnow().isoformat() + 'Z'] *)
Variable now : string.

Definition doc_update (d : doc) : exc + update :=
  let doc_id := get (doc_id d) in
  let name := get_default (metadata_spo_item_name d) in
  let path := get_default (metadata_spo_item_path d) in
  let '(category, access_level) := classify_document path name in
  match extract_community_name path with
  | inl e => inl e
  | inr extracted =>
      let community := py_or extracted (get (community_name d)) in
      match (if startswith category "owner_" then extract_owner_account name path
             else inr None) with
      | inl e => inl e
      | inr owner_account =>
          inr ([("id", doc_id);
                ("document_category", Some category);
                ("access_level", Some access_level);
                ("classified_at", Some now)]
               ++ (if truthy community then [("community_name", community)] else [])
               ++ (if truthy owner_account then [("owner_account_id", owner_account)] else []))
      end
  end.

(** One iteration: build the update, append it, count the computed
    classification, print a sample ([name[:50]] raises on [None]) and
    count the document as processed. *)
Definition process_doc (st : stats) (batch : list update) (d : doc)
  : exc + (stats * list update) :=
  match doc_update d with
  | inl e => inl e
  | inr u =>
      let '(category, access_level) :=
        classify_document (get_default (metadata_spo_item_path d))
                          (get_default (metadata_spo_item_name d)) in
      let batch := batch ++ [u] in
      let st := mk_stats (processed st) (updated st) (failed st)
                         (bump category (by_category st))
                         (bump access_level (by_access_level st)) in
      if Z.ltb (processed st) 10 && match get_default (metadata_spo_item_name d) with
                                      | Some _ => false | None => true end
      then inl TypeError
      else inr (mk_stats (processed st + 1) (updated st) (failed st)
                         (by_category st) (by_access_level st), batch)
  end.

Fixpoint process_docs (st : stats) (batch : list update) (ds : list doc)
  : exc + (stats * list update) :=
  match ds with
  | [] => inr (st, batch)
  | d :: rest =>
      match process_doc st batch d with
      | inl e => inl e
      | inr (st', batch') => process_docs st' batch' rest
      end
  end.
End PerDoc.

(* ================================================================== *)
(** ** Index client and orchestrator over an index service             *)
(* ================================================================== *)

Section Orchestrator.

(** The index service: a state, a search endpoint and an index (write)
    endpoint; every call is recorded in the trace. *)
Variable srv : Type.
Variable srv_search : srv -> Z -> Z -> bool -> http_search.   (* skip, top, unclassified_only *)
Variable srv_index : srv -> list update -> srv * http_index.
Variable now : string.

(** State and error monad threading the service state and the call log. *)
Definition M (A : Type) : Type := srv -> list event -> srv * list event * (exc + A).

Definition ret {A} (a : A) : M A := fun s t => (s, t, inr a).
Definition raise {A} (e : exc) : M A := fun s t => (s, t, inl e).
Definition bind {A B} (m : M A) (f : A -> M B) : M B :=
  fun s t => match m s t with
             | (s', t', inr a) => f a s' t'
             | (s', t', inl e) => (s', t', inl e)
             end.
Definition lift {A} (r : exc + A) : M A :=
  match r with inl e => raise e | inr a => ret a end.

Local Notation "'let*' x ':=' m 'in' k" := (bind m (fun x => k))
  (at level 200, x name, m at level 100, k at level 200).
Local Notation "'let*' ' p ':=' m 'in' k" := (bind m (fun p => k))
  (at level 200, p pattern, m at level 100, k at level 200).

Definition search_documents (skip top : Z) (unclassified_only : bool) : M search_ret :=
  fun s t =>
    let resp := srv_search s skip top unclassified_only in
    let returned := match hs_body resp with
                    | Some b => match sb_value b with Some v => length v | None => 0 end
                    | None => 0 end in
    let t := t ++ [ESearch skip top unclassified_only
                     (if Z.eqb (hs_status resp) 200 then returned else 0)] in
    if negb (Z.eqb (hs_status resp) 200) then (s, t, inr SRBareList)   (* return [] *)
    else match hs_body resp with
         | None => (s, t, inl JSONDecodeError)
         | Some b =>
             (s, t, inr (SRPair (match sb_value b with Some v => v | None => [] end)
                                (match sb_count b with Some c => c | None => 0%Z end)))
         end.

Definition update_documents_batch (updates : list update) : M (Z * Z) :=
  fun s t =>
    let '(s', resp) := srv_index s updates in
    (s', t ++ [EIndex updates], batch_result (Z.of_nat (length updates)) resp).

(** [# Batch update]: flush when live and the accumulator is full. *)
Definition maybe_flush (dry_run : bool) (batch_size : Z) (st : stats) (batch : list update)
  : M (stats * list update) :=
  if negb dry_run && Z.leb batch_size (Z.of_nat (length batch)) then
    let* '(succeeded, fl) := update_documents_batch batch in
    ret (add_counts st succeeded fl, [])
  else ret (st, batch).

(** [while skip < total_count:]; [fuel] bounds the number of rounds. *)
Fixpoint pages (fuel : nat) (unclassified_only dry_run : bool) (batch_size total_count : Z)
         (skip : Z) (batch : list update) (st : stats) : M (list update * stats) :=
  match fuel with
  | O => raise NoFuel
  | S fuel' =>
      if Z.ltb skip total_count then
        let* r := search_documents skip batch_size unclassified_only in
        let* '(docs, _) := lift (unpack r) in
        match docs with
        | [] => ret (batch, st)                                   (* break *)
        | _ =>
            let* '(st, batch) := lift (process_docs now st batch docs) in
            let* '(st, batch) := maybe_flush dry_run batch_size st batch in
            pages fuel' unclassified_only dry_run batch_size total_count
                  (skip + batch_size) batch st
        end
      else ret (batch, st)
  end.

(** [run_classification].  For [batch_size >= 1] the loop makes at most
    [total_count] rounds before its exit test, so the fuel
    [total_count + 1] never runs out; [NoFuel] can only stand for the
    non-terminating loop of a [batch_size <= 0]. *)
Definition run_classification (reclassify_all dry_run : bool) (batch_size : Z) : M outcome :=
  let unclassified_only := negb reclassify_all in
  let* r := search_documents 0 1 unclassified_only in
  let* '(_, total_count) := lift (unpack r) in
  if Z.eqb total_count 0 then ret NothingToClassify
  else
    let* '(batch, st) := pages (S (Z.to_nat total_count)) unclassified_only dry_run
                          batch_size total_count 0 [] stats0 in
    let* st := (if negb dry_run && negb (Nat.eqb (length batch) 0) then
              let* '(succeeded, fl) := update_documents_batch batch in
              ret (add_counts st succeeded fl)
            else ret st) in
    ret (Report st).

End Orchestrator.

(* ================================================================== *)
(** ** An index service holding documents (the Azure index's behaviour) *)
(* ================================================================== *)

(** The stored documents, in index order. *)
Definition store := list doc.

(** The filter [document_category eq null or document_category eq '']. *)
Definition unclassified (d : doc) : bool :=
  match document_category d with
  | FAbsent | FNull => true
  | FStr s => String.eqb s ""
  end.

(** Search: filter, then [skip]/[top] over the result set; [@odata.count]
    is the size of the filtered set. *)
Definition store_search (st : store) (skip top : Z) (unclassified_only : bool)
  : http_search :=
  let scope := if unclassified_only then filter unclassified st else st in
  if Z.ltb skip 0 || Z.ltb top 0 then mk_http_search 400 None
  else mk_http_search 200
         (Some (mk_search_body (Some (firstn (Z.to_nat top) (skipn (Z.to_nat skip) scope)))
                               (Some (Z.of_nat (length scope))))).

Definition to_field (v : pystr) : field :=
  match v with Some s => FStr s | None => FNull end.

(** A merge writes the given fields of the stored document. *)
Definition merge_fields (d : doc) (u : update) : doc :=
  fold_left (fun d kv =>
               let '(k, v) := kv in
               if String.eqb k "document_category" then
                 mk_doc (doc_id d) (metadata_spo_item_name d) (metadata_spo_item_path d)
                        (to_field v) (community_name d)
               else if String.eqb k "community_name" then
                 mk_doc (doc_id d) (metadata_spo_item_name d) (metadata_spo_item_path d)
                        (document_category d) (to_field v)
               else d) u d.

Definition same_id (id : pystr) (d : doc) : bool :=
  match id, doc_id d with
  | Some a, FStr b => String.eqb a b
  | _, _ => false
  end.

(** Merge one update; [false] when no stored document has its id. *)
Definition merge_one (st : store) (u : update) : store * bool :=
  let id := match assoc "id" u with Some v => v | None => None end in
  if existsb (same_id id) st
  then (map (fun d => if same_id id d then merge_fields d u else d) st, true)
  else (st, false).

Fixpoint merge_all (st : store) (us : list update) : store * list bool :=
  match us with
  | [] => (st, [])
  | u :: rest =>
      let '(st1, ok) := merge_one st u in
      let '(st2, oks) := merge_all st1 rest in (st2, ok :: oks)
  end.

(** Index: per-item acknowledgements; 200 when all succeed, 207 otherwise. *)
Definition store_index (st : store) (us : list update) : store * http_index :=
  let '(st', oks) := merge_all st us in
  (st', mk_http_index (if forallb id oks then 200 else 207)
          (Some (JObj [("value", JArr (map (fun ok => JObj [("status", JBool ok)]) oks))]))).

Definition run_on_store (st : store) (reclassify_all dry_run : bool) (batch_size : Z)
  : store * list event * (exc + outcome) :=
  run_classification store store_search store_index "2026-01-01T00:00:00Z"
                     reclassify_all dry_run batch_size st [].

(* ================================================================== *)
(** ** Concrete inputs *)
(* ================================================================== *)

(** The example of the spec: a statement file named
    [R0460131L0199873_statement.pdf]. *)
Definition statement_doc : doc :=
  mk_doc (FStr "doc-1") (FStr "R0460131L0199873_statement.pdf") (FStr "") FNull FNull.

Definition stored_community_doc : doc :=
  mk_doc (FStr "doc-2") (FStr "Pool Rules.pdf") (FStr "/Shared Documents/Rules/")
         FNull (FStr "Oak Hill").

(** A service whose count query succeeds (3 documents) and whose page
    queries answer 503. *)
Definition pages_down_search (_ : unit) (skip top : Z) (_ : bool) : http_search :=
  if Z.eqb top 1
  then mk_http_search 200 (Some (mk_search_body (Some [statement_doc]) (Some 3%Z)))
  else mk_http_search 503 None.

(** A service whose search endpoint answers 503 to everything. *)
Definition search_down (_ : unit) (skip top : Z) (_ : bool) : http_search :=
  mk_http_search 503 None.

Definition index_ok (_ : unit) (us : list update) : unit * http_index :=
  (tt, mk_http_index 200
         (Some (JObj [("value", JArr (map (fun _ => JObj [("status", JBool true)]) us))]))).

Definition minutes_doc (id : string) (name : string) : doc :=
  mk_doc (FStr id) (FStr name) (FStr "/sites/AssociationDocs/Oak Hill/Minutes/") FNull FNull.

(** Two unclassified documents. *)
Definition two_unclassified : store :=
  [minutes_doc "1" "January Minutes.pdf"; minutes_doc "2" "February Minutes.pdf"].

Fixpoint no_index_call (t : list event) : bool :=
  match t with
  | [] => true
  | ESearch _ _ _ _ :: rest => no_index_call rest
  | EIndex _ :: _ => false
  end.

Definition report_of (r : exc + outcome) : option stats :=
  match r with inr (Report st) => Some st | _ => None end.

Inductive call_shape : Type :=
| SSearch (skip top : Z) (returned : nat)
| SIndex (size : nat).

Definition event_shape (e : event) : call_shape :=
  match e with
  | ESearch skip top _ n => SSearch skip top n
  | EIndex b => SIndex (length b)
  end.

Definition docs250 : list doc := repeat (minutes_doc "1" "January Minutes.pdf") 250.

Definition index_down (_ : unit) (_ : list update) : unit * http_index :=
  (tt, mk_http_index 503 None).

(* ================================================================== *)
(** ** Shapes of strings produced by the extractors                     *)
(* ================================================================== *)

(** Neither the first nor the last character is whitespace. *)
Definition trimmed (l : list ascii) : bool :=
  match l with [] => true | c :: _ => negb (Re.is_space c) end &&
  match rev l with [] => true | c :: _ => negb (Re.is_space c) end.

(** The only whitespace character is the plain space. *)
Definition only_plain_spaces (l : list ascii) : bool :=
  forallb (fun c => negb (Re.is_space c) || Re.ceq c " ") l.

(** No two adjacent whitespace characters. *)
Fixpoint no_two_spaces (l : list ascii) : bool :=
  match l with
  | a :: ((b :: _) as tl) => negb (Re.is_space a && Re.is_space b) && no_two_spaces tl
  | _ => true
  end.

Definition normalized_name (s : string) : bool :=
  let l := list_ascii_of_string s in
  trimmed l && only_plain_spaces l && no_two_spaces l.


Definition head_not_space (l : list ascii) : bool :=
  match l with [] => true | c :: _ => negb (Re.is_space c) end.


(** The (category, access_level) pairs [classify_document] can return:
    those of the table, then the default. *)
Definition rule_pairs : list (string * string) :=
  map (fun r => (category r, access_level r)) CLASSIFICATION_RULES
  ++ [("uncategorized", "staff_only")]%string.

(** The access levels that occur in [CLASSIFICATION_RULES]. *)
Definition ACCESS_LEVELS : list string :=
  ["owner_only"; "arc_review"; "community_public"; "board_only"; "staff_only"]%string.


(** The [skip] of every search call of a trace, in order. *)
Fixpoint search_skips (t : list event) : list Z :=
  match t with
  | [] => []
  | ESearch skip _ _ _ :: rest => skip :: search_skips rest
  | EIndex _ :: rest => search_skips rest
  end.

(** [data.get('@odata.count', 0)] of a search answer with a body. *)
Definition answer_count (resp : http_search) : Z :=
  match hs_body resp with
  | Some b => match sb_count b with Some c => c | None => 0%Z end
  | None => 0%Z
  end.


(* ================================================================== *)
(** ** get_classification_stats and show_stats                         *)
(* ================================================================== *)

(** A response: status code and the body, when it decodes as JSON. *)
Record http_json : Type := mk_http_json {
  hj_status : Z;
  hj_body : option json
}.

(** Exceptions raised on the statistics path. *)
Inductive sexc : Type :=
| SJSONDecodeError
| SAttributeError
| STypeError
| SKeyError.

(** [d.get(key, default)]: only a dict has [.get]. *)
Definition json_get (d : json) (key : string) (default : json) : sexc + json :=
  match d with
  | JObj kvs => inr (match assoc key kvs with Some v => v | None => default end)
  | _ => inl SAttributeError
  end.

(** [f[key]] with a str key: a dict looks the key up; a list or a str
    needs an integer index and the other values are not subscriptable. *)
Definition subscript (f : json) (key : string) : sexc + json :=
  match f with
  | JObj kvs => match assoc key kvs with Some v => inr v | None => inl SKeyError end
  | _ => inl STypeError
  end.

(** Lists and dicts are unhashable. *)
Definition hashable (j : json) : bool :=
  match j with JArr _ | JObj _ => false | _ => true end.

Definition b2z (b : bool) : Z := if b then 1%Z else 0%Z.

(** Python's [==] on hashable JSON values ([True == 1], [False == 0]). *)
Definition py_eq_key (a b : json) : bool :=
  match a, b with
  | JNull, JNull => true
  | JStr x, JStr y => String.eqb x y
  | JNum x, JNum y => Z.eqb x y
  | JBool x, JBool y => Bool.eqb x y
  | JBool x, JNum y => Z.eqb (b2z x) y
  | JNum x, JBool y => Z.eqb x (b2z y)
  | _, _ => false
  end.

(** A Python dict with JSON keys, in insertion order. *)
Definition pydict : Type := list (json * json).

(** [d[k] = v]: an equal key keeps its place (and its first key object)
    and takes the new value; a new key goes last. *)
Fixpoint dict_set (k v : json) (d : pydict) : pydict :=
  match d with
  | [] => [(k, v)]
  | (k', v') :: rest => if py_eq_key k' k then (k', v) :: rest else (k', v') :: dict_set k v rest
  end.

Fixpoint dict_get (k : json) (d : pydict) : option json :=
  match d with
  | [] => None
  | (k', v) :: rest => if py_eq_key k' k then Some v else dict_get k rest
  end.

(** [{f['value']: f['count'] for f in items}]: the key expression, then
    the value expression, then the insertion (which hashes the key). *)
Fixpoint facet_loop (items : list json) (d : pydict) : sexc + pydict :=
  match items with
  | [] => inr d
  | f :: rest =>
      match subscript f "value" with
      | inl e => inl e
      | inr k =>
          match subscript f "count" with
          | inl e => inl e
          | inr v => if hashable k then facet_loop rest (dict_set k v d) else inl STypeError
          end
      end
  end.

Definition facet_dict (facets : json) : sexc + pydict :=
  match py_iter facets with
  | Some items => facet_loop items []
  | None => inl STypeError
  end.

(** What [get_classification_stats] returns: [{}], or the dict with
    [total_documents], [by_category] and [by_access_level]. *)
Inductive stats_value : Type :=
| StatsEmpty
| StatsDict (total : json) (by_category by_access_level : pydict).

Definition get_classification_stats (resp : http_json) : sexc + stats_value :=
  if negb (Z.eqb (hj_status resp) 200) then inr StatsEmpty
  else
    match hj_body resp with
    | None => inl SJSONDecodeError                      (* response.json() *)
    | Some data =>
        match json_get data "@odata.count" (JNum 0) with
        | inl e => inl e
        | inr total =>
            match json_get data "@search.facets" (JObj []) with
            | inl e => inl e
            | inr facets =>
                match json_get facets "document_category" (JArr []) with
                | inl e => inl e
                | inr cats =>
                    match facet_dict cats with
                    | inl e => inl e
                    | inr by_category =>
                        match json_get data "@search.facets" (JObj []) with
                        | inl e => inl e
                        | inr facets' =>
                            match json_get facets' "access_level" (JArr []) with
                            | inl e => inl e
                            | inr levels =>
                                match facet_dict levels with
                                | inl e => inl e
                                | inr by_access_level =>
                                    inr (StatsDict total by_category by_access_level)
                                end
                            end
                        end
                    end
                end
            end
        end
    end.

(** [str(n)] of a Python int. *)
Definition int_str (z : Z) : string := NilZero.string_of_int (Z.to_int z).

(** [-x[1]] for the sort key, with [str(x[1])] kept for printing: only
    numbers (and booleans, which are ints) support unary minus. *)
Definition neg_count (count : json) : sexc + (Z * string) :=
  match count with
  | JNum z => inr ((- z)%Z, int_str z)
  | JBool b => inr ((- b2z b)%Z, if b then "True" else "False")
  | _ => inl STypeError
  end.

(** [f"{k or placeholder}"] for a hashable key. *)
Definition key_label (placeholder : string) (k : json) : string :=
  if negb (json_truthy k) then placeholder
  else match k with
       | JStr s => s
       | JNum z => int_str z
       | JBool _ => "True"          (* a truthy bool *)
       | _ => placeholder           (* never a key: unhashable *)
       end.

(** Stable insertion: after every element whose key is [<=] the new one. *)
Fixpoint insert_by {A : Type} (k : Z) (x : A) (l : list (Z * A)) : list (Z * A) :=
  match l with
  | [] => [(k, x)]
  | (k', y) :: rest => if Z.ltb k k' then (k, x) :: l else (k', y) :: insert_by k x rest
  end.

(** Python's [sorted] is stable: the result is the stable sort by key. *)
Definition sort_by_key {A : Type} (l : list (Z * A)) : list (Z * A) :=
  fold_left (fun acc kx => insert_by (fst kx) (snd kx) acc) l [].

(** [sorted(d.items(), key=lambda x: -x[1])]: every key is computed first
    (the first failing one raises), then the stable sort. *)
Fixpoint keyed_items (d : pydict) : sexc + list (Z * (json * string)) :=
  match d with
  | [] => inr []
  | (k, v) :: rest =>
      match neg_count v with
      | inl e => inl e
      | inr (key, shown) =>
          match keyed_items rest with
          | inl e => inl e
          | inr l => inr ((key, (k, shown)) :: l)
          end
      end
  end.

(** The lines [f"  {k or placeholder}: {count}"], largest count first. *)
Definition item_lines (placeholder : string) (d : pydict) : sexc + list string :=
  match keyed_items d with
  | inl e => inl e
  | inr l =>
      inr (map (fun kx => "  " ++ key_label placeholder (fst (snd kx)) ++ ": " ++ snd (snd kx))
               (sort_by_key l))%string
  end.

(** A printed line; [PTotal v] is [print(f"\nTotal documents: {v}")]. *)
Inductive pline : Type :=
| PText (s : string)
| PTotal (v : json).

Definition bar : string := string_of_list_ascii (repeat "="%char 60).

Definition stats_header : list pline :=
  [PText bar; PText "Current Classification Statistics"; PText bar].

(** [if d: for k, count in sorted(...): print(...) else: print(empty)];
    the sort raises before any item is printed. *)
Definition section_lines (placeholder empty : string) (d : pydict) : list pline * option sexc :=
  match d with
  | [] => ([PText empty], None)
  | _ => match item_lines placeholder d with
         | inl e => ([], Some e)
         | inr ls => (map PText ls, None)
         end
  end.

(** The lines printed, and the exception that stopped it, if any. *)
Definition show_stats (resp : http_json) : list pline * option sexc :=
  match get_classification_stats resp with
  | inl e => (stats_header, Some e)
  | inr stats =>
      let total := match stats with StatsEmpty => JNum 0 | StatsDict t _ _ => t end in
      let by_cat := match stats with StatsEmpty => [] | StatsDict _ c _ => c end in
      let by_level := match stats with StatsEmpty => [] | StatsDict _ _ l => l end in
      let pre := stats_header ++ [PTotal total; PText (String "010" "By Category:")] in
      match section_lines "(unclassified)" "  No classification data yet" by_cat with
      | (ls, Some e) => (pre ++ ls, Some e)
      | (ls, None) =>
          let pre := pre ++ ls ++ [PText (String "010" "By Access Level:")] in
          match section_lines "(none)" "  No access level data yet" by_level with
          | (ls', r) => (pre ++ ls', r)
          end
      end
  end.

(* ================================================================== *)
(** ** The JSON body of [update_documents_batch]                       *)
(* ================================================================== *)

(** [d[k] = v] on a str-keyed dict in insertion order. *)
Fixpoint str_dict_set {V : Type} (k : string) (v : V) (d : list (string * V)) : list (string * V) :=
  match d with
  | [] => [(k, v)]
  | (k', v') :: rest => if String.eqb k' k then (k', v) :: rest else (k', v') :: str_dict_set k v rest
  end.

(** [{"@search.action": "merge", **doc}] *)
Definition merge_item (doc : update) : list (string * pystr) :=
  fold_left (fun acc kv => str_dict_set (fst kv) (snd kv) acc) doc [("@search.action", Some "merge")].

(** [body["value"]] *)
Definition batch_body (updates : list update) : list (list (string * pystr)) :=
  map merge_item updates.

(** The count of the last facet whose value equals [k]. *)
Fixpoint last_count (k : json) (items : list json) : option json :=
  match items with
  | [] => None
  | f :: rest =>
      match last_count k rest with
      | Some c => Some c
      | None =>
          match subscript f "value", subscript f "count" with
          | inr v, inr c => if py_eq_key v k then Some c else None
          | _, _ => None
          end
      end
  end.


(* ================================================================== *)
(** ** Evaluation of the matcher and the classifier *)
(* ================================================================== *)

Example re_t1 : Re.matches "^\d+.*statement" "2024 owner statement.pdf" = true.
Proof. vm_compute. reflexivity. Qed.
Example re_t2 : Re.matches "policy(?!.*insurance)" "policy for insurance" = false.
Proof. vm_compute. reflexivity. Qed.
Example re_t3 : Re.matches "policy(?!.*insurance)" "insurance policy" = true.
Proof. vm_compute. reflexivity. Qed.
Example re_t4 : option_map (Re.group1 "x Account: 12345 y")
                  (Re.search "Account[:\s#]*(\d+)" "x Account: 12345 y") = Some (Some "12345"%string).
Proof. vm_compute. reflexivity. Qed.
Example re_t5 : Re.matches "statement.*\.pdf$" "statement_x.pdfx" = false.
Proof. vm_compute. reflexivity. Qed.

Example classify_ex1 :
  classify_document (Some "/Financial/Budget/2024.pdf") (Some "2024 Operating Budget.pdf")
  = ("board_financial", "board_only")%string.
Proof. vm_compute. reflexivity. Qed.
Example classify_ex2 :
  classify_document (Some "/Minutes/2024/") (Some "January Board Meeting Minutes.pdf")
  = ("community_minutes", "community_public")%string.
Proof. vm_compute. reflexivity. Qed.
Example classify_ex3 :
  classify_document (Some "/Directory/") (Some "Resident Directory.pdf")
  = ("community_directory", "board_only")%string.
Proof. vm_compute. reflexivity. Qed.
Example classify_ex4 :
  classify_document (Some "") (Some "random_file.pdf") = ("uncategorized", "staff_only")%string.
Proof. vm_compute. reflexivity. Qed.
Example owner_ex5 :
  extract_owner_account (Some "R0460131L0199873_statement.pdf") (Some "")
  = inr (Some "R0460131L0199873"%string).
Proof. vm_compute. reflexivity. Qed.
Example community_ex :
  extract_community_name (Some "https://x/sites/AssociationDocs/Falcon%20Pointe  HOA/Docs/a.pdf")
  = inr (Some "Falcon Pointe HOA"%string).
Proof. vm_compute. reflexivity. Qed.

(* ================================================================== *)
(** ** Properties of the matcher                                        *)
(* ================================================================== *)

Module ReFacts.
Import Re ReAux.

Lemma char_step (w : list ascii) (i : nat) (x : ascii) :
  nth_error w i = Some x -> S i <= length w.
Proof. intros H. apply nth_error_Some. congruence. Qed.

Lemma m_star (w : list ascii) (r1 : regex) i c k :
  m w (RStar r1) i c k = star_loop (m w r1) k (S (length w - i)) i c.
Proof. reflexivity. Qed.

Ltac close_spec :=
  split; [assumption|]; split; [lia|]; split;
  [intros ?; assumption | intros [?|?]; [assumption|discriminate]].

Lemma m_spec (w : list ascii) (r : regex) :
  group_ok r = true ->
  forall i c k res, i <= length w -> m w r i c k = Some res ->
  exists j c', k j c' = Some res /\ i + minlen r <= j <= length w /\
    (caps_inv w c -> caps_inv w c') /\
    (c <> None \/ sets_group r = true -> c' <> None).
Proof.
  induction r as [a| |neg items| | | |r1 IH1 r2 IH2|r1 IH1 r2 IH2|r1 IH1|r1 IH1|r1 IH1];
    intros Hok i c k res Hi Hm; cbn [minlen sets_group group_ok] in *;
    [cbn [m] in Hm ..|rewrite m_star in Hm|cbn [m] in Hm|cbn [m] in Hm].
  - destruct (nth_error w i) as [x|] eqn:E; [|discriminate].
    destruct (Ascii.eqb _ _); [|discriminate].
    exists (S i), c. pose proof (char_step _ _ _ E). close_spec.
  - destruct (nth_error w i) as [x|] eqn:E; [|discriminate].
    destruct (Ascii.eqb _ _); [discriminate|].
    exists (S i), c. pose proof (char_step _ _ _ E). close_spec.
  - destruct (nth_error w i) as [x|] eqn:E; [|discriminate].
    destruct (xorb _ _); [|discriminate].
    exists (S i), c. pose proof (char_step _ _ _ E). close_spec.
  - destruct (Nat.eqb i 0); [|discriminate].
    exists i, c. close_spec.
  - destruct (_ || _); [|discriminate].
    exists i, c. close_spec.
  - exists i, c. close_spec.
  - apply andb_prop in Hok as [Ok1 Ok2].
    destruct (IH1 Ok1 _ _ _ _ Hi Hm) as (j1 & c1 & H1 & B1 & I1 & S1).
    destruct (IH2 Ok2 _ _ _ _ (proj2 B1) H1) as (j2 & c2 & H2 & B2 & I2 & S2).
    exists j2, c2. split; [exact H2|]. split; [lia|]. split; [tauto|].
    intros [Hc|Hs].
    + apply S2. left. apply S1. left. exact Hc.
    + apply orb_prop in Hs as [Hs|Hs].
      * apply S2. left. apply S1. right. exact Hs.
      * apply S2. right. exact Hs.
  - apply andb_prop in Hok as [Ok1 Ok2].
    destruct (m w r1 i c k) eqn:E1.
    + injection Hm as <-.
      destruct (IH1 Ok1 _ _ _ _ Hi E1) as (j & c' & H & B & I & S).
      exists j, c'. split; [exact H|]. split; [lia|]. split; [exact I|].
      intros [Hc|Hs]; apply S; [left; exact Hc|].
      right. apply andb_prop in Hs. tauto.
    + destruct (IH2 Ok2 _ _ _ _ Hi Hm) as (j & c' & H & B & I & S).
      exists j, c'. split; [exact H|]. split; [lia|]. split; [exact I|].
      intros [Hc|Hs]; apply S; [left; exact Hc|].
      right. apply andb_prop in Hs. tauto.
  - remember (S (length w - i)) as n eqn:En. clear En. revert i c Hi Hm.
    induction n as [|n IHn]; intros i c Hi Hm; simpl in Hm.
    + exists i, c. close_spec.
    + destruct (m w r1 i c _) eqn:E.
      * injection Hm as <-.
        destruct (IH1 Hok _ _ _ _ Hi E) as (j & c1 & H & B & I & S).
        destruct (Nat.ltb i j) eqn:Lt; [|discriminate].
        destruct (IHn _ _ (proj2 B) H) as (j2 & c2 & H2 & B2 & I2 & S2).
        exists j2, c2. split; [exact H2|]. split; [lia|]. split; [tauto|].
        intros [Hc|Hs]; [|discriminate]. apply S2. left. apply S. left. exact Hc.
      * exists i, c. close_spec.
  - apply andb_prop in Hok as [Ok1 Ok1'].
    apply Nat.leb_le in Ok1.
    destruct (IH1 Ok1' _ _ _ _ Hi Hm) as (j & c1 & H & B & I & S).
    exists j, (Some (i, j)). split; [exact H|]. split; [lia|]. split.
    + intros _ a b E. injection E as <- <-. lia.
    + intros _. discriminate.
  - destruct (m w r1 i c _); [discriminate|].
    exists i, c. close_spec.
Qed.

Lemma search_from_spec (w : list ascii) (r : regex) :
  group_ok r = true ->
  forall n i a b c, i + n <= S (length w) ->
  search_from w r i n = Some (a, b, c) ->
  caps_inv w c /\ (sets_group r = true -> c <> None).
Proof.
  intros Hok n. induction n as [|n IHn]; simpl; intros i a b c Hi H; [discriminate|].
  destruct (m w r i None _) as [[j c']|] eqn:E.
  - injection H as <- <- <-.
    destruct (m_spec w r Hok i None _ _ ltac:(lia) E) as (j' & c'' & Hk & _ & I & S).
    injection Hk as <- <-. split.
    + refine (I _). intros x y D. discriminate.
    + intros Hs. apply S. right. exact Hs.
  - eapply (IHn (S i)); [lia|exact H].
Qed.

Lemma search_re_spec (r : regex) (s : string) (mo : match_obj) :
  group_ok r = true -> search_re r s = Some mo ->
  caps_inv (list_ascii_of_string s) (snd mo) /\
  (sets_group r = true -> snd mo <> None).
Proof.
  intros Hok H. destruct mo as [[a b] c]. unfold search_re in H.
  refine (search_from_spec _ _ Hok _ 0 a b c _ H). lia.
Qed.

Lemma group1_nonempty (p s : string) (mo : match_obj) :
  capturing p = true -> Re.search p s = Some mo ->
  exists g, group1 s mo = Some g /\ g <> ""%string.
Proof.
  unfold capturing, Re.search. destruct (compile p) as [r|]; [|discriminate].
  intros Hc H. apply andb_prop in Hc as [Hok Hs].
  destruct (search_re_spec r s mo Hok H) as [I S].
  destruct mo as [[x y] [[a b]|]]; simpl in *.
  - exists (string_of_list_ascii (firstn (b - a) (skipn a (list_ascii_of_string s)))).
    split; [reflexivity|].
    destruct (I a b eq_refl) as [Hab Hb].
    intros E. apply (f_equal list_ascii_of_string) in E.
    rewrite list_ascii_of_string_of_list_ascii in E.
    apply (f_equal (@length ascii)) in E. simpl in E.
    rewrite length_firstn, length_skipn in E. lia.
  - exfalso. apply (S Hs). reflexivity.
Qed.

End ReFacts.
(* ================================================================== *)
(** ** Rule engine: generic facts about the first-match loop           *)
(* ================================================================== *)

Lemma any_pattern_hit_existsb (ps : list string) (s : string) :
  any_pattern_hit ps s = existsb (fun p => Re.matches p s) ps.
Proof.
  induction ps as [|p ps IH]; simpl; [reflexivity|].
  destruct (Re.matches p s); simpl; auto.
Qed.

Lemma rule_matched_flat (r : rule) (pl nl : string) :
  rule_matched r pl nl = rule_matches_flat r pl nl.
Proof.
  unfold rule_matched, rule_matches_flat.
  rewrite !any_pattern_hit_existsb.
  destruct (existsb _ (path_patterns r)); reflexivity.
Qed.

Lemma first_match_nth (rules : list rule) (pl nl : string) (i : nat) (r1 : rule) :
  nth_error rules i = Some r1 ->
  rule_matched r1 pl nl = true ->
  (forall j r, j < i -> nth_error rules j = Some r -> rule_matched r pl nl = false) ->
  first_match rules pl nl = (category r1, access_level r1).
Proof.
  revert i. induction rules as [|r rs IH]; intros i Hi Hm Hbefore.
  - destruct i; discriminate.
  - destruct i as [|i]; simpl in Hi |- *.
    + injection Hi as ->. rewrite Hm. reflexivity.
    + rewrite (Hbefore 0 r ltac:(lia) eq_refl).
      apply (IH i Hi Hm). intros j r' Hj Hr'.
      apply (Hbefore (S j) r'); [lia|exact Hr'].
Qed.

Lemma first_match_none (rules : list rule) (pl nl : string) :
  (forall r, In r rules -> rule_matched r pl nl = false) ->
  first_match rules pl nl = ("uncategorized", "staff_only")%string.
Proof.
  induction rules as [|r rs IH]; intros H; simpl; [reflexivity|].
  rewrite (H r (or_introl eq_refl)). apply IH. intros r' Hr'. apply H. right. exact Hr'.
Qed.

Lemma no_pattern_matches_spec (rules : list rule) (pl nl : string) :
  no_pattern_matches rules pl nl = true ->
  forall r, In r rules ->
  (forall p, In p (path_patterns r) -> Re.matches p pl = false) /\
  (forall p, In p (name_patterns r) -> Re.matches p nl = false).
Proof.
  unfold no_pattern_matches. rewrite forallb_forall. intros H r Hr.
  specialize (H r Hr). apply andb_prop in H as [H1 H2].
  rewrite forallb_forall in H1, H2. split; intros p Hp.
  - specialize (H1 p Hp). destruct (Re.matches p pl); [discriminate|reflexivity].
  - specialize (H2 p Hp). destruct (Re.matches p nl); [discriminate|reflexivity].
Qed.

Lemma none_before_spec (rules : list rule) (i : nat) (pl nl : string) :
  none_before rules i pl nl = true ->
  forall j r, j < i -> nth_error rules j = Some r -> rule_matched r pl nl = false.
Proof.
  unfold none_before. rewrite forallb_forall. intros H j r Hj Hr.
  assert (In r (firstn i rules)) as Hin.
  { apply (nth_error_In _ j). rewrite nth_error_firstn.
    destruct (Nat.ltb_spec j i); [exact Hr|lia]. }
  specialize (H r Hin). destruct (rule_matched r pl nl); [discriminate|reflexivity].
Qed.

(** The extractor patterns always capture a non-empty group. *)
Lemma owner_patterns_capturing :
  Forall (fun p => ReAux.capturing p = true) OWNER_ACCOUNT_PATTERNS.
Proof. repeat constructor; vm_compute; reflexivity. Qed.

Lemma community_patterns_capturing :
  Forall (fun p => ReAux.capturing p = true) COMMUNITY_PATTERNS.
Proof. repeat constructor; vm_compute; reflexivity. Qed.

Lemma owner_account_loop_spec (ps : list string) (t : string) :
  Forall (fun p => ReAux.capturing p = true) ps ->
  exists res, owner_account_loop ps (Some t) = inr res /\
    (res = None <-> first_search ps t = None) /\
    (forall g, res = Some g -> g <> ""%string).
Proof.
  induction ps as [|p ps IH]; intros Hc; simpl.
  - exists None. split; [reflexivity|]. split; [tauto|]. discriminate.
  - inversion Hc as [|? ? Hp Hps]; subst.
    destruct (Re.search p t) as [mo|] eqn:E.
    + destruct (ReFacts.group1_nonempty p t mo Hp E) as (g & Hg & Hne).
      exists (Some g). rewrite Hg. split; [reflexivity|]. split.
      * split; discriminate.
      * intros g' E'. injection E' as <-. exact Hne.
    + exact (IH Hps).
Qed.

Lemma first_search_group (ps : list string) (t : string) (mo : Re.match_obj) :
  Forall (fun p => ReAux.capturing p = true) ps ->
  first_search ps t = Some mo ->
  exists g, Re.group1 t mo = Some g /\ g <> ""%string.
Proof.
  induction ps as [|p ps IH]; intros Hc H; simpl in H; [discriminate|].
  inversion Hc as [|? ? Hp Hps]; subst.
  destruct (Re.search p t) as [mo'|] eqn:E.
  - injection H as <-. exact (ReFacts.group1_nonempty p t mo' Hp E).
  - exact (IH Hps H).
Qed.

(* ================================================================== *)
(** ** Claims about the rule engine and the extractors                 *)
(* ================================================================== *)

Lemma first_match_flat_eq (rules : list rule) (pl nl : string) :
  first_match rules pl nl = first_match_flat rules pl nl.
Proof.
  induction rules as [|r rs IH]; simpl; [reflexivity|].
  rewrite rule_matched_flat. destruct (rule_matches_flat r pl nl); auto.
Qed.

Lemma extract_community_name_spec :
  forall path : pystr, exists r, extract_community_name path = inr r /\
     (r = None <-> truthy path = false \/
                   first_search COMMUNITY_PATTERNS (py_format path) = None).
Proof.
  intros path. unfold extract_community_name.
  destruct (truthy path) eqn:T; cbn zeta; cbn [negb].
  + destruct (first_search COMMUNITY_PATTERNS (py_format path)) as [mo|] eqn:E.
    * destruct (first_search_group _ _ _ community_patterns_capturing E) as (g & Hg & _).
      rewrite Hg. eexists. split; [reflexivity|].
      split; [discriminate|]. intros [H|H]; discriminate.
    * eexists. split; [reflexivity|]. tauto.
  + eexists. split; [reflexivity|]. tauto.
Qed.

Lemma extract_owner_account_spec :
  forall name path : pystr, name <> None \/ truthy path = true ->
     exists r, extract_owner_account name path = inr r /\
     (r = None <-> first_search OWNER_ACCOUNT_PATTERNS
                     (if truthy path then (py_format name ++ " " ++ py_format path)%string
                      else py_format name) = None).
Proof.
  intros name path Hin. unfold extract_owner_account.
  destruct (truthy path) eqn:T.
  + destruct (owner_account_loop_spec OWNER_ACCOUNT_PATTERNS
                (py_format name ++ " " ++ py_format path) owner_patterns_capturing)
      as (res & E & Hiff & _).
    exists res. split; [exact E|exact Hiff].
  + destruct name as [n|]; [|destruct Hin as [Hin|Hin]; [congruence|discriminate]].
    destruct (owner_account_loop_spec OWNER_ACCOUNT_PATTERNS n owner_patterns_capturing)
      as (res & E & Hiff & _).
    exists res. split; [exact E|exact Hiff].
Qed.

(** C2 (counterexample): [extract_owner_account(None, None)] and
    [extract_owner_account(None, '')] raise [TypeError]: the text searched
    is [name] itself, and [re.search] on [None] raises. *)
Lemma extract_owner_account_None_raises :
  extract_owner_account None None = inl TypeError /\
  extract_owner_account None (Some "") = inl TypeError.
Proof. split; vm_compute; reflexivity. Qed.

(** C2 (amended): [extract_community_name] returns normally on every
    path, [None] and [''] included, and returns null exactly when the path
    is falsy or no community pattern matches; [extract_owner_account]
    returns normally whenever [name] is a str or [path] is a non-empty str,
    and returns null exactly when no account pattern matches the searched
    text. *)
Theorem extractors_return_normally :
  (forall path : pystr, exists r, extract_community_name path = inr r /\
     (r = None <-> truthy path = false \/
                   first_search COMMUNITY_PATTERNS (py_format path) = None)) /\
  (forall name path : pystr, name <> None \/ truthy path = true ->
     exists r, extract_owner_account name path = inr r /\
     (r = None <-> first_search OWNER_ACCOUNT_PATTERNS
                     (if truthy path then (py_format name ++ " " ++ py_format path)%string
                      else py_format name) = None)).
Proof. split; [exact extract_community_name_spec | exact extract_owner_account_spec]. Qed.

Lemma extractors_return_normally_witness :
  (Some "R0460131L0199873_statement.pdf"%string <> None \/ truthy (Some ""%string) = true) /\
  exists r, extract_owner_account (Some "R0460131L0199873_statement.pdf") (Some "") = inr r /\
    (r = None <-> first_search OWNER_ACCOUNT_PATTERNS
                    (if truthy (Some ""%string)
                     then (py_format (Some "R0460131L0199873_statement.pdf"%string) ++ " "
                           ++ py_format (Some ""%string))%string
                     else py_format (Some "R0460131L0199873_statement.pdf"%string)) = None).
Proof.
  assert (H : Some "R0460131L0199873_statement.pdf"%string <> None \/
              truthy (Some ""%string) = true) by (left; discriminate).
  split; [exact H|].
  exact (proj2 extractors_return_normally _ _ H).
Defined.

(** C3 (counterexample): two rules can both match while an even earlier
    rule wins.  Path [/Statements/2024/], name [Ledger CCR.pdf]: rule 1
    ([owner_ledger]) and rule 4 ([governing_ccr]) both match, but rule 0
    ([owner_statement], through its path pattern) is the result. *)
Lemma rule_precedence_pairwise_fails :
  ~ (forall (path name : pystr) (i j : nat) (r1 r2 : rule), i < j ->
       nth_error CLASSIFICATION_RULES i = Some r1 ->
       nth_error CLASSIFICATION_RULES j = Some r2 ->
       rule_matched r1 (lower_or_empty path) (lower_or_empty name) = true ->
       rule_matched r2 (lower_or_empty path) (lower_or_empty name) = true ->
       classify_document path name = (category r1, access_level r1)).
Proof.
  intros H.
  specialize (H (Some "/Statements/2024/"%string) (Some "Ledger CCR.pdf"%string) 1 4 _ _
                ltac:(lia) eq_refl eq_refl).
  vm_compute in H. specialize (H eq_refl eq_refl). discriminate H.
Qed.

(** C3 (amended): if rule R1 matches the lower-cased (path, name) and no
    rule declared before R1 matches, [classify_document] returns R1's
    (category, access_level), whatever later rules match. *)
Theorem first_matching_rule_wins :
  forall (path name : pystr) (i : nat) (r1 : rule),
    nth_error CLASSIFICATION_RULES i = Some r1 ->
    rule_matched r1 (lower_or_empty path) (lower_or_empty name) = true ->
    (forall j r, j < i -> nth_error CLASSIFICATION_RULES j = Some r ->
                 rule_matched r (lower_or_empty path) (lower_or_empty name) = false) ->
    classify_document path name = (category r1, access_level r1).
Proof.
  intros path name i r1 Hi Hm Hb. unfold classify_document.
  exact (first_match_nth _ _ _ i r1 Hi Hm Hb).
Qed.

Lemma first_matching_rule_wins_witness :
  classify_document (Some "/Financial/Budget/2024.pdf") (Some "2024 Operating Budget.pdf")
  = ("board_financial", "board_only")%string.
Proof.
  refine (first_matching_rule_wins _ _ 12 _ eq_refl _ _).
  - vm_compute. reflexivity.
  - apply none_before_spec. vm_compute. reflexivity.
Defined.

(** C4: when no path pattern of any rule matches the lower-cased path and
    no name pattern matches the lower-cased name, the result is
    [("uncategorized", "staff_only")]; [None] path or name is handled as
    the empty string. *)
Theorem default_fallback :
  (forall path name : pystr,
     (forall r, In r CLASSIFICATION_RULES ->
        (forall p, In p (path_patterns r) -> Re.matches p (lower_or_empty path) = false) /\
        (forall p, In p (name_patterns r) -> Re.matches p (lower_or_empty name) = false)) ->
     classify_document path name = ("uncategorized", "staff_only")%string) /\
  (forall path name : pystr,
     classify_document None name = classify_document (Some "") name /\
     classify_document path None = classify_document path (Some "")).
Proof.
  split.
  - intros path name H. unfold classify_document. apply first_match_none.
    intros r Hr. destruct (H r Hr) as [Hp Hn].
    unfold rule_matched. rewrite !any_pattern_hit_existsb.
    assert (E1 : existsb (fun p => Re.matches p (lower_or_empty path)) (path_patterns r) = false).
    { apply Bool.not_true_iff_false. rewrite existsb_exists.
      intros (p & Hin & Hm). rewrite (Hp p Hin) in Hm. discriminate. }
    assert (E2 : existsb (fun p => Re.matches p (lower_or_empty name)) (name_patterns r) = false).
    { apply Bool.not_true_iff_false. rewrite existsb_exists.
      intros (p & Hin & Hm). rewrite (Hn p Hin) in Hm. discriminate. }
    rewrite E1, E2. reflexivity.
  - intros path name. split; reflexivity.
Qed.

Lemma default_fallback_witness :
  classify_document (Some "") (Some "random_file.pdf") = ("uncategorized", "staff_only")%string.
Proof.
  apply (proj1 default_fallback).
  apply no_pattern_matches_spec. vm_compute. reflexivity.
Defined.

(** C10: the staged test of a rule (path patterns, then name patterns only
    if no path pattern hit) decides exactly like the flat OR, and so
    [classify_document] equals its flat-OR variant. *)
Theorem staged_equals_flat_or :
  (forall (r : rule) (pl nl : string), rule_matched r pl nl = rule_matches_flat r pl nl) /\
  (forall path name : pystr, classify_document path name = classify_flat path name).
Proof.
  split.
  - exact rule_matched_flat.
  - intros path name. unfold classify_document, classify_flat.
    apply first_match_flat_eq.
Qed.

(* ================================================================== *)
(** ** Claims about the per-document update and the batch client       *)
(* ================================================================== *)

Lemma process_doc_appends (now : string) (st : stats) (batch : list update) (d : doc)
      (st' : stats) (batch' : list update) :
  process_doc now st batch d = inr (st', batch') ->
  exists u, doc_update now d = inr u /\ batch' = batch ++ [u].
Proof.
  unfold process_doc. destruct (doc_update now d) as [e|u]; [discriminate|].
  destruct (classify_document _ _) as [category access].
  destruct (_ && _); [discriminate|]. intros H. injection H as _ <-.
  exists u. split; reflexivity.
Qed.

Lemma extract_owner_account_nonempty (name path : pystr) (id : string) :
  extract_owner_account name path = inr (Some id) -> id <> ""%string.
Proof.
  unfold extract_owner_account.
  destruct (if truthy path then Some (py_format name ++ " " ++ py_format path)%string
            else name) as [t|] eqn:Et.
  - destruct (owner_account_loop_spec OWNER_ACCOUNT_PATTERNS t owner_patterns_capturing)
      as (res & E & _ & Hne).
    rewrite E. intros H. injection H as ->. apply Hne. reflexivity.
  - intros H. vm_compute in H. discriminate H.
Qed.

Lemma truthy_nonempty (s : string) : s <> ""%string -> truthy (Some s) = true.
Proof.
  intros H. simpl. destruct (String.eqb_spec s ""); [contradiction|reflexivity].
Qed.

(** C5: for every processed document, the update appended to the batch
    has no [owner_account_id] key when the category does not start with
    [owner_]; when it does and [extract_owner_account] captures an id, the
    update maps [owner_account_id] to that id. *)
Theorem owner_account_gating :
  forall (now : string) (st : stats) (batch : list update) (d : doc)
         (st' : stats) (batch' : list update),
    process_doc now st batch d = inr (st', batch') ->
    exists u, batch' = batch ++ [u] /\
      let name := get_default (metadata_spo_item_name d) in
      let path := get_default (metadata_spo_item_path d) in
      (startswith (fst (classify_document path name)) "owner_" = false ->
         ~ In "owner_account_id"%string (map fst u)) /\
      (startswith (fst (classify_document path name)) "owner_" = true ->
         forall id, extract_owner_account name path = inr (Some id) ->
         assoc "owner_account_id" u = Some (Some id)).
Proof.
  intros now st batch d st' batch' H.
  destruct (process_doc_appends _ _ _ _ _ _ H) as (u & Hu & ->).
  exists u. split; [reflexivity|]. cbn zeta.
  unfold doc_update in Hu.
  destruct (classify_document _ _) as [category access]. simpl fst.
  destruct (extract_community_name _) as [e|extracted]; [discriminate|].
  split.
  - intros Hs. rewrite Hs in Hu. injection Hu as <-.
    destruct (truthy (py_or _ _)); simpl; intuition discriminate.
  - intros Hs id Hid. rewrite Hs, Hid in Hu. injection Hu as <-.
    pose proof (extract_owner_account_nonempty _ _ _ Hid) as Hne.
    destruct (String.eqb_spec id "") as [Heq|_]; [contradiction|]. simpl negb.
    destruct (truthy (py_or _ _)); reflexivity.
Qed.

Lemma owner_account_gating_witness :
  match process_doc "2026-01-01T00:00:00Z" stats0 [] statement_doc with
  | inr (st', batch') =>
      exists u, batch' = [] ++ [u] /\
        assoc "owner_account_id" u = Some (Some "R0460131L0199873"%string)
  | inl _ => False
  end.
Proof.
  destruct (process_doc "2026-01-01T00:00:00Z" stats0 [] statement_doc)
    as [e|[st' batch']] eqn:E.
  - vm_compute in E. discriminate E.
  - destruct (owner_account_gating _ _ _ _ _ _ E) as (u & Hb & _ & Hown).
    exists u. split; [exact Hb|].
    apply Hown; vm_compute; reflexivity.
Defined.

(** C6: for every processed document the appended update never maps
    [community_name] to null; when [extract_community_name] finds nothing
    and the document has a stored [community_name] [c], the update carries
    [c] (or, for [c = ''], has no [community_name] key). *)
Theorem community_name_preserved :
  forall (now : string) (st : stats) (batch : list update) (d : doc)
         (st' : stats) (batch' : list update),
    process_doc now st batch d = inr (st', batch') ->
    exists u, batch' = batch ++ [u] /\
      ~ In ("community_name"%string, None) u /\
      (extract_community_name (get_default (metadata_spo_item_path d)) = inr None ->
       forall c, community_name d = FStr c ->
         (assoc "community_name" u = Some (Some c) /\ c <> ""%string) \/
         (~ In "community_name"%string (map fst u) /\ c = ""%string)).
Proof.
  intros now st batch d st' batch' H.
  destruct (process_doc_appends _ _ _ _ _ _ H) as (u & Hu & ->).
  exists u. split; [reflexivity|].
  unfold doc_update in Hu.
  destruct (classify_document _ _) as [category access].
  destruct (extract_community_name _) as [e|extracted] eqn:Ec; [discriminate|].
  destruct (if startswith category "owner_" then _ else _) as [e|owner] eqn:Eo;
    [discriminate|].
  injection Hu as <-. split.
  - intros Hin.
    destruct (truthy (py_or extracted (get (community_name d)))) eqn:T;
      destruct (truthy owner); simpl in Hin;
      repeat (destruct Hin as [Hin|Hin];
              [first [discriminate Hin
                     | injection Hin; intros Hv; rewrite Hv in T; simpl in T; discriminate T
                     | injection Hin; intros _ Hv; rewrite Hv in T; simpl in T; discriminate T]|]);
      exact Hin.
  - intros Hnone c Hc. injection Hnone as ->. rewrite Hc. simpl py_or.
    destruct (String.eqb_spec c "") as [->|Hne].
    + right. split; [|reflexivity]. simpl.
      destruct (truthy owner); simpl; intuition discriminate.
    + left. split; [|exact Hne]. simpl.
      destruct (String.eqb_spec c "") as [Heq|_]; [contradiction|]. reflexivity.
Qed.

Lemma community_name_preserved_witness :
  match process_doc "2026-01-01T00:00:00Z" stats0 [] stored_community_doc with
  | inr (st', batch') =>
      exists u, batch' = [] ++ [u] /\
        assoc "community_name" u = Some (Some "Oak Hill"%string)
  | inl _ => False
  end.
Proof.
  destruct (process_doc "2026-01-01T00:00:00Z" stats0 [] stored_community_doc)
    as [e|[st' batch']] eqn:E.
  - vm_compute in E. discriminate E.
  - destruct (community_name_preserved _ _ _ _ _ _ E) as (u & Hb & _ & Hc).
    exists u. split; [exact Hb|].
    destruct (Hc ltac:(vm_compute; reflexivity) "Oak Hill"%string eq_refl)
      as [[Ha _]|[_ Habs]]; [exact Ha|discriminate Habs].
Defined.

Lemma count_status_bound (items : list json) (n : Z) :
  count_status items = inr n -> (0 <= n)%Z.
Proof.
  revert n. induction items as [|j rest IH]; intros n H; simpl in H.
  - injection H as <-. lia.
  - destruct j; try discriminate.
    destruct (count_status rest) as [e|k]; [discriminate|].
    injection H as <-. specialize (IH k eq_refl).
    destruct (assoc "status" kvs) as [s|]; [destruct (json_truthy s)|]; lia.
Qed.

(** C7: whenever [update_documents_batch] returns a pair for [N] updates,
    succeeded + failed = N; when the POST answers with a status other
    than 200 the pair is exactly (0, N). *)
Theorem batch_accounting :
  forall (srv : Type) (srv_index : srv -> list update -> srv * http_index)
         (updates : list update) (s : srv) (t : list event),
    let '(_, _, r) := update_documents_batch srv srv_index updates s t in
    (forall succeeded fl, r = inr (succeeded, fl) ->
       (succeeded + fl = Z.of_nat (length updates))%Z) /\
    (hi_status (snd (srv_index s updates)) <> 200%Z ->
       r = inr (0%Z, Z.of_nat (length updates))).
Proof.
  intros srv srv_index updates s t. unfold update_documents_batch.
  destruct (srv_index s updates) as [s' resp]. simpl snd. unfold batch_result.
  destruct (Z.eqb_spec (hi_status resp) 200) as [E|E].
  - split; [|intros H; contradiction].
    intros a b H.
    destruct (hi_body resp) as [[| | | | |kvs]|]; try discriminate.
    destruct (py_iter _) as [items|]; [|discriminate].
    destruct (count_status items) as [e|k]; [discriminate|].
    injection H as <- <-. lia.
  - split; [|reflexivity]. intros a b H. injection H as <- <-. lia.
Qed.

Lemma batch_accounting_witness :
  let down := fun (_ : unit) (_ : list update) => (tt, mk_http_index 503 None) in
  let '(_, _, r) := update_documents_batch unit down [[("id", Some "doc-1"%string)]] tt [] in
  r = inr (0%Z, 1%Z).
Proof.
  intros down.
  pose proof (batch_accounting unit down [[("id", Some "doc-1"%string)]] tt []) as H.
  destruct (update_documents_batch _ _ _ _ _) as [[s' t'] r].
  destruct H as [_ H2]. exact (H2 ltac:(vm_compute; discriminate)).
Defined.

(* ================================================================== *)
(** ** Claims about the orchestrator                                   *)
(* ================================================================== *)

(** C1 (code bug): on a non-200 search answer [search_documents] returns
    the bare list [[]]; the caller's [docs, _ = ...] then raises
    [ValueError], both for a page query and for the initial count query:
    the run stops before its final report. *)
Theorem search_failure_crashes_run :
  run_classification unit pages_down_search index_ok "2026-01-01T00:00:00Z"
                     false false 100 tt []
  = (tt, [ESearch 0 1 true 1; ESearch 0 100 true 0], inl ValueError) /\
  run_classification unit search_down index_ok "2026-01-01T00:00:00Z"
                     false false 100 tt []
  = (tt, [ESearch 0 1 true 0], inl ValueError).
Proof. split; vm_compute; reflexivity. Qed.

(** C8 (code bug): unclassified-only scope, [batch_size = 1], two
    unclassified documents.  The dry run issues no index call and counts
    both documents; the live run flushes the first document, which then
    leaves the [document_category eq null] scope, so the page at skip 1
    is empty, the loop breaks, and the live frequency tables count one
    document only. *)
Theorem live_run_skips_documents :
  let '(_, t_dry, r_dry) := run_on_store two_unclassified false true 1 in
  let '(_, t_live, r_live) := run_on_store two_unclassified false false 1 in
  no_index_call t_dry = true /\
  t_live = [ESearch 0 1 true 1; ESearch 0 1 true 1;
            EIndex [[("id", Some "1"%string);
                     ("document_category", Some "community_minutes"%string);
                     ("access_level", Some "community_public"%string);
                     ("classified_at", Some "2026-01-01T00:00:00Z"%string);
                     ("community_name", Some "Oak Hill"%string)]];
            ESearch 1 1 true 0] /\
  option_map processed (report_of r_dry) = Some 2%Z /\
  option_map processed (report_of r_live) = Some 1%Z /\
  option_map (fun st => map_to_list (by_category st)) (report_of r_dry)
    = Some [("community_minutes"%string, 2%Z)] /\
  option_map (fun st => map_to_list (by_category st)) (report_of r_live)
    = Some [("community_minutes"%string, 1%Z)].
Proof. vm_compute. repeat split; reflexivity. Qed.

Lemma doc_update_ok now d :
  metadata_spo_item_name d <> FNull -> exists u, doc_update now d = inr u.
Proof.
  intros Hn. unfold doc_update.
  destruct (classify_document _ _) as [category access_level].
  destruct (extract_community_name_spec (get_default (metadata_spo_item_path d)))
    as (r & E & _). rewrite E.
  destruct (startswith category "owner_").
  - destruct (extract_owner_account_spec (get_default (metadata_spo_item_name d))
                (get_default (metadata_spo_item_path d))) as (r' & E' & _).
    + left. destruct (metadata_spo_item_name d); cbn; congruence.
    + rewrite E'. eauto.
  - eauto.
Qed.

Lemma process_docs_ok now ds : forall st batch,
  Forall (fun d => metadata_spo_item_name d <> FNull) ds ->
  exists st' us, process_docs now st batch ds = inr (st', batch ++ us) /\
    length us = length ds /\ processed st' = (processed st + Z.of_nat (length ds))%Z.
Proof.
  induction ds as [|d ds IH]; intros st batch Hall.
  - exists st, []. rewrite app_nil_r. split; [reflexivity|]. split; [reflexivity|]. cbn; lia.
  - inversion Hall as [|? ? Hd Hrest]; subst.
    cbn [process_docs]. unfold process_doc.
    destruct (doc_update_ok now d Hd) as (u & Eu). rewrite Eu.
    destruct (classify_document _ _) as [category access_level].
    replace (match get_default (metadata_spo_item_name d) with
             | Some _ => false | None => true end) with false
      by (destruct (metadata_spo_item_name d); cbn; congruence).
    rewrite andb_false_r.
    edestruct IH as (st' & us & E & L & Pr); [exact Hrest|].
    rewrite E. exists st', (u :: us). rewrite <- app_assoc. split; [reflexivity|].
    split; [cbn; rewrite L; reflexivity|]. rewrite Pr. cbn [processed length]. lia.
Qed.

Section Rounds.
Variable srv : Type.
Variable srv_search : srv -> Z -> Z -> bool -> http_search.
Variable srv_index : srv -> list update -> srv * http_index.
Variable now : string.

Lemma pages_exit fuel u dry bs total skip batch st s t :
  Z.ltb skip total = false ->
  pages srv srv_search srv_index now (S fuel) u dry bs total skip batch st s t
  = (s, t, inr (batch, st)).
Proof. intros H. cbn [pages]. rewrite H. reflexivity. Qed.

Lemma pages_round fuel u dry bs total skip batch st s t s1 t1 page c st1 b1 s2 t2 st2 b2 :
  search_documents srv srv_search skip bs u s t = (s1, t1, inr (SRPair page c)) ->
  page <> [] ->
  process_docs now st batch page = inr (st1, b1) ->
  maybe_flush srv srv_index dry bs st1 b1 s1 t1 = (s2, t2, inr (st2, b2)) ->
  Z.ltb skip total = true ->
  pages srv srv_search srv_index now (S fuel) u dry bs total skip batch st s t
  = pages srv srv_search srv_index now fuel u dry bs total (skip + bs) b2 st2 s2 t2.
Proof.
  intros Hs Hne Hp Hf Hlt. cbn [pages]. rewrite Hlt.
  unfold bind at 1. rewrite Hs. cbn [unpack lift ret bind].
  destruct page as [|d ds]; [congruence|].
  rewrite Hp. cbn [lift ret bind]. unfold bind. rewrite Hf. reflexivity.
Qed.

Lemma flush_full bs st b s t p :
  Z.leb bs (Z.of_nat (length b)) = true ->
  batch_result (Z.of_nat (length b)) (snd (srv_index s b)) = inr p ->
  maybe_flush srv srv_index false bs st b s t
  = (fst (srv_index s b), t ++ [EIndex b], inr (add_counts st (fst p) (snd p), [])).
Proof.
  intros Hle Hb. unfold maybe_flush. rewrite Hle. cbn [negb andb].
  unfold bind, update_documents_batch.
  destruct (srv_index s b) as [s' resp]. cbn in Hb |- *. rewrite Hb.
  destruct p. reflexivity.
Qed.

Lemma flush_not_full bs st b s t :
  Z.leb bs (Z.of_nat (length b)) = false ->
  maybe_flush srv srv_index false bs st b s t = (s, t, inr (st, b)).
Proof. intros H. unfold maybe_flush. rewrite H. reflexivity. Qed.

Variable docs : list doc.
Hypothesis Hsearch :
  forall s skip top u, srv_search s skip top u = store_search docs skip top false.

Lemma search_static skip top u s t :
  (0 <= skip)%Z -> (0 <= top)%Z ->
  search_documents srv srv_search skip top u s t
  = (s, t ++ [ESearch skip top u (length (firstn (Z.to_nat top) (skipn (Z.to_nat skip) docs)))],
     inr (SRPair (firstn (Z.to_nat top) (skipn (Z.to_nat skip) docs)) (Z.of_nat (length docs)))).
Proof.
  intros H1 H2. unfold search_documents. rewrite Hsearch. unfold store_search.
  replace (Z.ltb skip 0 || Z.ltb top 0) with false
    by (symmetry; apply orb_false_iff; split; apply Z.ltb_ge; lia).
  reflexivity.
Qed.
Lemma search_slice skip top u s t page :
  (0 <= skip)%Z -> (0 <= top)%Z ->
  firstn (Z.to_nat top) (skipn (Z.to_nat skip) docs) = page ->
  search_documents srv srv_search skip top u s t
  = (s, t ++ [ESearch skip top u (length page)], inr (SRPair page (Z.of_nat (length docs)))).
Proof. intros H1 H2 <-. apply search_static; assumption. Qed.
End Rounds.

(** A live run over a static scope of 250 documents with [batch_size = 100],
    stated on the result triple. *)
Lemma static_250_run :
  forall (srv : Type) (srv_search : srv -> Z -> Z -> bool -> http_search)
         (srv_index : srv -> list update -> srv * http_index) (now : string)
         (docs : list doc) (reclassify_all : bool) (s0 : srv),
  length docs = 250 ->
  Forall (fun d => metadata_spo_item_name d <> FNull) docs ->
  (forall s skip top u, srv_search s skip top u = store_search docs skip top false) ->
  (forall s b, exists p, batch_result (Z.of_nat (length b)) (snd (srv_index s b)) = inr p) ->
  let '(_, t, r) := run_classification srv srv_search srv_index now
                                       reclassify_all false 100 s0 [] in
  map event_shape t = [SSearch 0 1 1; SSearch 0 100 100; SIndex 100;
                       SSearch 100 100 100; SIndex 100;
                       SSearch 200 100 50; SIndex 50] /\
  exists st, r = inr (Report st) /\ processed st = 250%Z.
Proof.
  intros srv srv_search srv_index now docs reclassify_all s0 Hlen Hall Hs Hb.
  set (u := negb reclassify_all).
  set (A := firstn 100 docs). set (B := firstn 100 (skipn 100 docs)).
  set (C := skipn 200 docs).
  assert (LA : length A = 100) by (subst A; rewrite length_firstn, Hlen; reflexivity).
  assert (LB : length B = 100)
    by (subst B; rewrite length_firstn, length_skipn, Hlen; reflexivity).
  assert (LC : length C = 50) by (subst C; rewrite length_skipn, Hlen; reflexivity).
  assert (FA : Forall (fun d => metadata_spo_item_name d <> FNull) A)
    by (apply Forall_take; exact Hall).
  assert (FB : Forall (fun d => metadata_spo_item_name d <> FNull) B)
    by (apply Forall_take, Forall_drop; exact Hall).
  assert (FC : Forall (fun d => metadata_spo_item_name d <> FNull) C)
    by (apply Forall_drop; exact Hall).
  assert (L1 : length (firstn 1 docs) = 1) by (rewrite length_firstn, Hlen; reflexivity).
  (* the count query *)
  unfold run_classification. fold u.
  unfold bind at 1.
  rewrite (search_slice srv srv_search docs Hs 0 1 u s0 [] (firstn 1 docs));
    [|lia|lia|reflexivity].
  cbn [unpack lift ret bind]. rewrite Hlen. change (Z.of_nat 250) with 250%Z.
  cbn [Z.eqb Pos.eqb]. unfold bind at 1.
  change (Z.to_nat 250) with (S (S (S 247))).
  (* page 1 *)
  destruct (process_docs_ok now A stats0 [] FA) as (st1 & us1 & P1 & K1 & Q1).
  destruct (Hb s0 ([] ++ us1)) as [p1 B1].
  rewrite (pages_round srv srv_search srv_index now _ _ _ _ _ _ _ _ _ _ _ _ _ _ _ _ _ _ _ _
             (search_slice srv srv_search docs Hs 0 100 u s0 _ A ltac:(lia) ltac:(lia) eq_refl)
             ltac:(destruct A; [discriminate|congruence]) P1
             (flush_full srv srv_index 100 st1 ([] ++ us1) s0 _ p1
                ltac:(rewrite length_app, K1, LA; reflexivity) B1));
    [|reflexivity].
  (* page 2 *)
  set (s1 := fst (srv_index s0 ([] ++ us1))).
  destruct (process_docs_ok now B (add_counts st1 (fst p1) (snd p1)) [] FB)
    as (st2 & us2 & P2 & K2 & Q2).
  destruct (Hb s1 ([] ++ us2)) as [p2 B2].
  rewrite (pages_round srv srv_search srv_index now _ _ _ _ _ _ _ _ _ _ _ _ _ _ _ _ _ _ _ _
             (search_slice srv srv_search docs Hs 100 100 u s1 _ B ltac:(lia) ltac:(lia) eq_refl)
             ltac:(destruct B; [discriminate|congruence]) P2
             (flush_full srv srv_index 100 st2 ([] ++ us2) s1 _ p2
                ltac:(rewrite length_app, K2, LB; reflexivity) B2));
    [|reflexivity].
  (* page 3 *)
  set (s2 := fst (srv_index s1 ([] ++ us2))).
  destruct (process_docs_ok now C (add_counts st2 (fst p2) (snd p2)) [] FC)
    as (st3 & us3 & P3 & K3 & Q3).
  assert (EC : firstn (Z.to_nat 100) (skipn (Z.to_nat (0 + 100 + 100)) docs) = C)
    by (apply firstn_all2; rewrite LC; lia).
  rewrite (pages_round srv srv_search srv_index now _ _ _ _ _ _ _ _ _ _ _ _ _ _ _ _ _ _ _ _
             (search_slice srv srv_search docs Hs (0 + 100 + 100) 100 u s2 _ C
                ltac:(lia) ltac:(lia) EC)
             ltac:(destruct C; [discriminate|congruence]) P3
             (flush_not_full srv srv_index 100 st3 ([] ++ us3) s2 _
                ltac:(rewrite length_app, K3, LC; reflexivity)));
    [|reflexivity].
  rewrite pages_exit by reflexivity.
  (* the final flush *)
  assert (E3 : Nat.eqb (length ([] ++ us3)) 0 = false)
    by (rewrite length_app, K3, LC; reflexivity).
  rewrite E3. cbn [negb andb].
  destruct (Hb s2 ([] ++ us3)) as [p3 B3].
  unfold bind, update_documents_batch; cbv beta.
  destruct (srv_index s2 ([] ++ us3)) as [s3 resp] eqn:I3. cbn [snd] in B3.
  rewrite B3. destruct p3 as [a3 f3]. cbn [ret].
  split.
  - rewrite !map_app. cbn [map event_shape app].
    rewrite K1, K2, K3, LA, LB, LC, L1. reflexivity.
  - eexists. split; [reflexivity|]. cbn [add_counts processed].
    rewrite Q3, LC. cbn [add_counts processed]. rewrite Q2, LB. cbn [add_counts processed].
    rewrite Q1, LA. reflexivity.
Qed.
(** C9: over a static scope of 250 documents (every search answers a
    [skip]/[top] slice of the same list with [@odata.count = 250]), whose
    names are non-null and whose batch answers are well formed, a live
    run with [batch_size = 100] makes the count query, then pages at skip
    0, 100 and 200 returning 100, 100 and 50 records, writes batches of
    100, 100 (in the loop) and 50 (the final flush), stops at
    [skip = 300 >= 250] without a fourth search, and reports 250
    processed documents. *)
Theorem static_250_pagination :
  forall (srv : Type) (srv_search : srv -> Z -> Z -> bool -> http_search)
         (srv_index : srv -> list update -> srv * http_index) (now : string)
         (docs : list doc) (reclassify_all : bool) (s0 : srv),
  length docs = 250 ->
  Forall (fun d => metadata_spo_item_name d <> FNull) docs ->
  (forall s skip top u, srv_search s skip top u = store_search docs skip top false) ->
  (forall s b, exists p, batch_result (Z.of_nat (length b)) (snd (srv_index s b)) = inr p) ->
  let res := run_classification srv srv_search srv_index now
                                reclassify_all false 100 s0 [] in
  map event_shape (snd (fst res)) = [SSearch 0 1 1; SSearch 0 100 100; SIndex 100;
                                     SSearch 100 100 100; SIndex 100;
                                     SSearch 200 100 50; SIndex 50] /\
  exists st, snd res = inr (Report st) /\ processed st = 250%Z.
Proof.
  intros srv srv_search srv_index now docs reclassify_all s0 Hlen Hall Hs Hb res.
  pose proof (static_250_run srv srv_search srv_index now docs reclassify_all s0
                Hlen Hall Hs Hb) as H.
  subst res. destruct (run_classification _ _ _ _ _ _ _ _ _) as [[s' t] r].
  exact H.
Qed.






(** 250 copies of one minutes document, a static search service and an
    index service answering 503. *)
Lemma static_250_pagination_witness :
  length docs250 = 250 /\
  Forall (fun d => metadata_spo_item_name d <> FNull) docs250 /\
  (forall (s : unit) skip top u,
     (fun (_ : unit) skip top (_ : bool) => store_search docs250 skip top false) s skip top u
     = store_search docs250 skip top false) /\
  (forall s b, exists p, batch_result (Z.of_nat (length b)) (snd (index_down s b)) = inr p) /\
  let res := run_classification unit
                 (fun _ skip top _ => store_search docs250 skip top false)
                 index_down "2026-01-01T00:00:00Z" false false 100 tt [] in
  map event_shape (snd (fst res)) = [SSearch 0 1 1; SSearch 0 100 100; SIndex 100;
                                     SSearch 100 100 100; SIndex 100;
                                     SSearch 200 100 50; SIndex 50] /\
  exists st, snd res = inr (Report st) /\ processed st = 250%Z.
Proof.
  assert (H1 : length docs250 = 250) by reflexivity.
  assert (H2 : Forall (fun d => metadata_spo_item_name d <> FNull) docs250).
  { apply List.Forall_forall. intros d Hd. apply repeat_spec in Hd. subst d. discriminate. }
  assert (H3 : forall (s : unit) skip top u,
     (fun (_ : unit) skip top (_ : bool) => store_search docs250 skip top false) s skip top u
     = store_search docs250 skip top false) by reflexivity.
  assert (H4 : forall s b, exists p,
     batch_result (Z.of_nat (length b)) (snd (index_down s b)) = inr p)
    by (intros s b; eexists; reflexivity).
  split; [exact H1|]. split; [exact H2|]. split; [exact H3|]. split; [exact H4|].
  exact (static_250_pagination unit _ index_down "2026-01-01T00:00:00Z" docs250 false tt
           H1 H2 H3 H4).
Defined.


Lemma sub_spaces_plain b l : only_plain_spaces (sub_spaces b l) = true.
Proof.
  revert b. induction l as [|c l IH]; intros b; [reflexivity|].
  cbn [sub_spaces]. destruct (Re.is_space c) eqn:E; [destruct b|]; cbn;
    rewrite ?E; cbn; rewrite ?IH; reflexivity.
Qed.

Lemma sub_spaces_true_head l : head_not_space (sub_spaces true l) = true.
Proof.
  induction l as [|c l IH]; [reflexivity|].
  cbn [sub_spaces]. destruct (Re.is_space c) eqn:E; [exact IH|]. cbn. rewrite E. reflexivity.
Qed.

Lemma no_two_spaces_cons c l :
  no_two_spaces (c :: l) = (negb (Re.is_space c) || head_not_space l) && no_two_spaces l.
Proof.
  destruct l as [|d l]; cbn [no_two_spaces head_not_space].
  - destruct (Re.is_space c); reflexivity.
  - destruct (Re.is_space c), (Re.is_space d); reflexivity.
Qed.

Lemma sub_spaces_no_two b l : no_two_spaces (sub_spaces b l) = true.
Proof.
  revert b. induction l as [|c l IH]; intros b; [reflexivity|].
  cbn [sub_spaces]. destruct (Re.is_space c) eqn:E; [destruct b|].
  - apply IH.
  - rewrite no_two_spaces_cons, sub_spaces_true_head, IH. rewrite orb_true_r. reflexivity.
  - rewrite no_two_spaces_cons, E, IH. reflexivity.
Qed.

Lemma lstrip_suffix l : exists p, l = p ++ lstrip l.
Proof.
  induction l as [|c l [p IH]]; [exists []; reflexivity|].
  cbn [lstrip]. destruct (Re.is_space c).
  - exists (c :: p). cbn. rewrite <- IH. reflexivity.
  - exists []. reflexivity.
Qed.

Lemma lstrip_head l : head_not_space (lstrip l) = true.
Proof.
  induction l as [|c l IH]; [reflexivity|].
  cbn [lstrip]. destruct (Re.is_space c) eqn:E; [exact IH|]. cbn. rewrite E. reflexivity.
Qed.

Lemma only_plain_spaces_app a b :
  only_plain_spaces (a ++ b) = only_plain_spaces a && only_plain_spaces b.
Proof. unfold only_plain_spaces. apply forallb_app. Qed.

Lemma only_plain_spaces_rev a : only_plain_spaces (rev a) = only_plain_spaces a.
Proof.
  induction a as [|c a IH]; [reflexivity|].
  cbn [rev]. rewrite only_plain_spaces_app, IH. cbn. rewrite andb_true_r. apply andb_comm.
Qed.

Lemma no_two_spaces_app a b :
  no_two_spaces (a ++ b) = true -> no_two_spaces a = true /\ no_two_spaces b = true.
Proof.
  induction a as [|c a IH]; intros H; [split; [reflexivity|exact H]|].
  rewrite <- app_comm_cons, no_two_spaces_cons in H.
  apply andb_prop in H as [H1 H2]. destruct (IH H2) as [Ha Hb]. split; [|exact Hb].
  rewrite no_two_spaces_cons, Ha, andb_true_r.
  destruct a as [|d a]; [apply orb_true_r|exact H1].
Qed.

Lemma no_two_spaces_snoc a c :
  no_two_spaces (a ++ [c]) =
  no_two_spaces a && (negb (Re.is_space c) || head_not_space (rev a)).
Proof.
  induction a as [|d a IH].
  - cbn. destruct (Re.is_space c); reflexivity.
  - rewrite <- app_comm_cons, !no_two_spaces_cons, IH.
    destruct a as [|e a].
    + cbn. destruct (Re.is_space c), (Re.is_space d); reflexivity.
    + cbn [rev app head_not_space].
      replace (head_not_space (((rev a ++ [e]) ++ [d]))) with (head_not_space (rev a ++ [e]))
        by (destruct (rev a); reflexivity).
      cbn. destruct (Re.is_space e), (Re.is_space d), (Re.is_space c); cbn;
        rewrite ?andb_true_r, ?andb_false_r; reflexivity.
Qed.

Lemma no_two_spaces_rev a : no_two_spaces (rev a) = no_two_spaces a.
Proof.
  induction a as [|c a IH]; [reflexivity|].
  cbn [rev]. rewrite no_two_spaces_snoc, IH, no_two_spaces_cons, rev_involutive.
  apply andb_comm.
Qed.

Lemma strip_spec l :
  only_plain_spaces l = true -> no_two_spaces l = true ->
  trimmed (strip l) = true /\ only_plain_spaces (strip l) = true /\
  no_two_spaces (strip l) = true.
Proof.
  intros Hp Hn. unfold strip.
  set (X := lstrip l). destruct (lstrip_suffix l) as [p1 E1]. fold X in E1.
  set (L := lstrip (rev X)). destruct (lstrip_suffix (rev X)) as [p2 E2]. fold L in E2.
  assert (EX : X = rev L ++ rev p2)
    by (rewrite <- rev_app_distr, <- E2, rev_involutive; reflexivity).
  assert (HXp : only_plain_spaces X = true)
    by (rewrite E1, only_plain_spaces_app in Hp; apply andb_prop in Hp; tauto).
  assert (HXn : no_two_spaces X = true)
    by (rewrite E1 in Hn; apply no_two_spaces_app in Hn; tauto).
  rewrite EX in HXp, HXn. rewrite only_plain_spaces_app in HXp.
  apply andb_prop in HXp as [HLp _]. apply no_two_spaces_app in HXn as [HLn _].
  split; [|split; [exact HLp|exact HLn]].
  unfold trimmed. rewrite rev_involutive.
  pose proof (lstrip_head (rev X)) as HL. fold L in HL.
  pose proof (lstrip_head l) as HX. fold X in HX. rewrite EX in HX.
  apply andb_true_intro. split.
  - destruct (rev L) as [|c r]; [reflexivity|]. exact HX.
  - exact HL.
Qed.


Lemma first_match_in (rules : list rule) pl nl :
  In (first_match rules pl nl)
     (map (fun r => (category r, access_level r)) rules ++ [("uncategorized", "staff_only")]%string).
Proof.
  induction rules as [|r rs IH]; cbn [first_match]; [left; reflexivity|].
  destruct (rule_matched r pl nl); [left; reflexivity|right; exact IH].
Qed.

Lemma nodup_fst_functional (l : list (string * string)) a b b' :
  NoDup (map fst l) -> In (a, b) l -> In (a, b') l -> b = b'.
Proof.
  induction l as [|[x y] l IH]; intros Hd H1 H2; [destruct H1|].
  inversion Hd as [|? ? Hnot Hd']; subst.
  destruct H1 as [E1|H1]; destruct H2 as [E2|H2].
  - congruence.
  - exfalso. apply Hnot. replace x with a by congruence. apply list_elem_of_In. exact (in_map fst l (a, b') H2).
  - exfalso. apply Hnot. replace x with a by congruence. apply list_elem_of_In. exact (in_map fst l (a, b) H1).
  - exact (IH Hd' H1 H2).
Qed.

Lemma rule_pairs_nodup : NoDup (map fst rule_pairs).
Proof.
  apply (bool_decide_unpack _). vm_compute. reflexivity.
Qed.

Lemma lower_char_idem c : Re.lower_char (Re.lower_char c) = Re.lower_char c.
Proof.
  destruct c as [b0 b1 b2 b3 b4 b5 b6 b7];
    destruct b0, b1, b2, b3, b4, b5, b6, b7; reflexivity.
Qed.

Lemma str_lower_idem s : str_lower (str_lower s) = str_lower s.
Proof.
  unfold str_lower. rewrite list_ascii_of_string_of_list_ascii, map_map.
  f_equal. apply map_ext. apply lower_char_idem.
Qed.

Lemma str_lower_empty s : String.eqb (str_lower s) "" = String.eqb s "".
Proof.
  destruct s; reflexivity.
Qed.

Lemma lower_or_empty_lower p : lower_or_empty (option_map str_lower p) = lower_or_empty p.
Proof.
  destruct p as [s|]; [|reflexivity]. cbn [option_map lower_or_empty truthy].
  rewrite str_lower_empty. destruct (negb (String.eqb s "")); [apply str_lower_idem|reflexivity].
Qed.


(** X1: the community name extracted from a path is trimmed, single-spaced and
    uses no whitespace but the plain space. *)
Theorem extract_community_name_normalized (path : pystr) (c : string) :
  extract_community_name path = inr (Some c) -> normalized_name c = true.
Proof.
  unfold extract_community_name. destruct (negb (truthy path)); [discriminate|].
  cbn zeta. destruct (first_search _ _) as [mo|]; [|discriminate].
  destruct (Re.group1 _ _) as [g|]; [|discriminate].
  intros H. injection H as <-. unfold normalized_name, clean_community.
  rewrite list_ascii_of_string_of_list_ascii.
  destruct (strip_spec (sub_spaces false (replace_pct20 (list_ascii_of_string g))))
    as (H1 & H2 & H3); [apply sub_spaces_plain|apply sub_spaces_no_two|].
  rewrite H1, H2, H3. reflexivity.
Qed.

Lemma extract_community_name_normalized_witness :
  extract_community_name (Some "https://x/sites/AssociationDocs/Falcon%20Pointe  HOA/Docs/a.pdf")
    = inr (Some "Falcon Pointe HOA"%string) /\
  normalized_name "Falcon Pointe HOA" = true.
Proof.
  assert (H : extract_community_name
                (Some "https://x/sites/AssociationDocs/Falcon%20Pointe  HOA/Docs/a.pdf")
              = inr (Some "Falcon Pointe HOA"%string)) by (vm_compute; reflexivity).
  split; [exact H|]. exact (extract_community_name_normalized _ _ H).
Defined.


(** X2: [classify_document] returns one of the table's (category,
    access_level) pairs or the default [('uncategorized', 'staff_only')];
    the category is never empty and the access level is one of
    owner_only, arc_review, community_public, board_only, staff_only. *)
Theorem classify_document_range (path name : pystr) :
  In (classify_document path name) rule_pairs /\
  fst (classify_document path name) <> ""%string /\
  In (snd (classify_document path name)) ACCESS_LEVELS.
Proof.
  pose proof (first_match_in CLASSIFICATION_RULES (lower_or_empty path) (lower_or_empty name))
    as H. fold rule_pairs in H. unfold classify_document.
  destruct (first_match _ _ _) as [c a]. split; [exact H|].
  cbn [fst snd].
  assert (Hall : forall p, In p rule_pairs -> fst p <> ""%string /\ In (snd p) ACCESS_LEVELS).
  { intros p Hp. unfold rule_pairs in Hp. cbn in Hp.
    repeat (destruct Hp as [<-|Hp]; [split; [discriminate|cbn; tauto]|]). destruct Hp. }
  exact (Hall _ H).
Qed.

(** X3: the access level is a function of the category: two documents given
    the same category are given the same access level. *)
Theorem access_level_determined_by_category (p1 n1 p2 n2 : pystr) :
  fst (classify_document p1 n1) = fst (classify_document p2 n2) ->
  snd (classify_document p1 n1) = snd (classify_document p2 n2).
Proof.
  pose proof (first_match_in CLASSIFICATION_RULES (lower_or_empty p1) (lower_or_empty n1))
    as H1.
  pose proof (first_match_in CLASSIFICATION_RULES (lower_or_empty p2) (lower_or_empty n2))
    as H2.
  fold rule_pairs in H1, H2. unfold classify_document.
  destruct (first_match _ (lower_or_empty p1) _) as [c1 a1].
  destruct (first_match _ (lower_or_empty p2) _) as [c2 a2].
  cbn [fst snd]. intros <-.
  exact (nodup_fst_functional rule_pairs c1 a1 a2 rule_pairs_nodup H1 H2).
Qed.

Lemma access_level_determined_by_category_witness :
  fst (classify_document (Some "/Minutes/2024/") (Some "a.pdf"))
    = fst (classify_document (Some "/x/") (Some "March MINUTES.pdf")) /\
  snd (classify_document (Some "/Minutes/2024/") (Some "a.pdf"))
    = snd (classify_document (Some "/x/") (Some "March MINUTES.pdf")).
Proof.
  assert (H : fst (classify_document (Some "/Minutes/2024/") (Some "a.pdf"))
              = fst (classify_document (Some "/x/") (Some "March MINUTES.pdf")))
    by (vm_compute; reflexivity).
  split; [exact H|]. exact (access_level_determined_by_category _ _ _ _ H).
Defined.

(** X4: classification ignores letter case: lower-casing the path and the
    name beforehand does not change the result. *)
Theorem classify_document_case_insensitive (path name : pystr) :
  classify_document (option_map str_lower path) (option_map str_lower name)
  = classify_document path name.
Proof. unfold classify_document. rewrite !lower_or_empty_lower. reflexivity. Qed.











Lemma search_skips_app a b : search_skips (a ++ b) = search_skips a ++ search_skips b.
Proof. induction a as [|[] a IH]; cbn; rewrite ?IH; reflexivity. Qed.

Lemma owner_account_loop_exc ps text e :
  owner_account_loop ps text = inl e -> e = TypeError.
Proof.
  induction ps as [|p ps IH]; cbn [owner_account_loop]; [discriminate|].
  destruct (re_search p text) as [e'|[mo|]] eqn:E; [|discriminate|exact IH].
  intros H. injection H as <-. destruct text; cbn in E; congruence.
Qed.

Lemma doc_update_exc now d e :
  doc_update now d = inl e -> e = TypeError \/ e = AttributeError.
Proof.
  unfold doc_update. destruct (classify_document _ _) as [c a].
  unfold extract_community_name.
  destruct (negb (truthy _)).
  - destruct (if startswith c "owner_" then _ else _) as [e'|] eqn:E; [|discriminate].
    intros H. injection H as <-. left. destruct (startswith c "owner_"); [|discriminate].
    exact (owner_account_loop_exc _ _ _ E).
  - cbn zeta. destruct (first_search _ _) as [mo|].
    + destruct (Re.group1 _ _).
      * destruct (if startswith c "owner_" then _ else _) as [e'|] eqn:E; [|discriminate].
        intros H. injection H as <-. left. destruct (startswith c "owner_"); [|discriminate].
        exact (owner_account_loop_exc _ _ _ E).
      * intros H. injection H as <-. right. reflexivity.
    + destruct (if startswith c "owner_" then _ else _) as [e'|] eqn:E; [|discriminate].
      intros H. injection H as <-. left. destruct (startswith c "owner_"); [|discriminate].
      exact (owner_account_loop_exc _ _ _ E).
Qed.

Lemma process_docs_exc now ds : forall st batch e,
  process_docs now st batch ds = inl e -> e = TypeError \/ e = AttributeError.
Proof.
  induction ds as [|d ds IH]; intros st batch e; cbn [process_docs]; [discriminate|].
  destruct (process_doc now st batch d) as [e'|[st1 b1]] eqn:E; [|apply IH].
  intros H. injection H as <-. unfold process_doc in E.
  destruct (doc_update now d) as [e''|u] eqn:U.
  - injection E as <-. exact (doc_update_exc _ _ _ U).
  - destruct (classify_document _ _). destruct (_ && _); [|discriminate].
    injection E as <-. left. reflexivity.
Qed.

Lemma count_status_exc items e : count_status items = inl e -> e = AttributeError.
Proof.
  induction items as [|[| | | | |kvs] items IH]; cbn [count_status];
    try discriminate; try (intros H; injection H as <-; reflexivity).
  destruct (count_status items) as [e'|n]; [|discriminate].
  intros H. injection H as <-. apply IH. reflexivity.
Qed.

Lemma batch_result_exc n resp e : batch_result n resp = inl e -> e <> NoFuel.
Proof.
  unfold batch_result. destruct (Z.eqb (hi_status resp) 200); [|discriminate].
  destruct (hi_body resp) as [[| | | | |kvs]|];
    try (intros H; injection H as <-; discriminate).
  destruct (py_iter _); [|intros H; injection H as <-; discriminate].
  destruct (count_status _) as [e'|] eqn:C; [|discriminate].
  intros H. injection H as <-. rewrite (count_status_exc _ _ C). discriminate.
Qed.

Lemma search_documents_shape srv srv_search skip top u s t s' t' r :
  search_documents srv srv_search skip top u s t = (s', t', r) ->
  s' = s /\ search_skips t' = search_skips t ++ [skip] /\
  (forall e, r = inl e -> e = JSONDecodeError) /\
  (forall d c, r = inr (SRPair d c) -> c = answer_count (srv_search s skip top u)).
Proof.
  unfold search_documents, answer_count.
  destruct (negb _); [|destruct (hs_body _) as [b|]];
    intros H; injection H as <- <- <-;
    (split; [reflexivity|]); rewrite search_skips_app; cbn;
    (split; [reflexivity|]); split; intros; congruence.
Qed.

Lemma flush_shape srv srv_index dry bs st b s t s' t' r :
  maybe_flush srv srv_index dry bs st b s t = (s', t', r) ->
  search_skips t' = search_skips t /\ (forall e, r = inl e -> e <> NoFuel).
Proof.
  unfold maybe_flush. destruct (negb dry && _).
  - unfold bind, update_documents_batch. destruct (srv_index s b) as [s1 resp].
    destruct (batch_result _ resp) as [e|[a f]] eqn:B; intros H; injection H as _ <- <-;
      rewrite search_skips_app, app_nil_r; (split; [reflexivity|]); intros e' He'.
    + injection He' as <-. exact (batch_result_exc _ _ _ B).
    + discriminate.
  - intros H. injection H as _ <- <-. split; [reflexivity|discriminate].
Qed.

Lemma pages_skips srv srv_search srv_index now dry u bs total (Hbs : (1 <= bs)%Z) fuel :
  forall j batch st s t s' t' r,
  (Z.to_nat (total - Z.of_nat j * bs) < fuel)%nat ->
  pages srv srv_search srv_index now fuel u dry bs total (Z.of_nat j * bs) batch st s t
    = (s', t', r) ->
  r <> inl NoFuel /\
  exists k, search_skips t' = search_skips t ++ map (fun i => Z.of_nat i * bs)%Z (seq j k) /\
            forall i, (j <= i < j + k)%nat -> (Z.of_nat i * bs < total)%Z.
Proof.
  induction fuel as [|fuel IH]; intros j batch st s t s' t' r Hf H; [lia|].
  cbn [pages] in H.
  destruct (Z.ltb (Z.of_nat j * bs) total) eqn:Hlt.
  2:{ injection H as <- <- <-. split; [discriminate|]. exists O.
      rewrite app_nil_r. split; [reflexivity|lia]. }
  apply Z.ltb_lt in Hlt.
  assert (One : forall t1, search_skips t1 = search_skips t ++ [Z.of_nat j * bs]%Z ->
                 exists k, search_skips t1 = search_skips t ++
                             map (fun i => Z.of_nat i * bs)%Z (seq j k) /\
                           forall i, (j <= i < j + k)%nat -> (Z.of_nat i * bs < total)%Z).
  { intros t1 E. exists 1%nat. rewrite E. split; [reflexivity|].
    intros i Hi. replace i with j by lia. exact Hlt. }
  unfold bind at 1 in H.
  destruct (search_documents srv srv_search (Z.of_nat j * bs) bs u s t)
    as [[s1 t1] r1] eqn:ES.
  destruct (search_documents_shape _ _ _ _ _ _ _ _ _ _ ES) as (_ & E1 & X1 & _).
  destruct r1 as [e|sr].
  { injection H as _ <- <-. rewrite (X1 e eq_refl). split; [discriminate|exact (One _ E1)]. }
  destruct sr as [|docs c]; cbn [unpack lift raise ret bind] in H.
  { injection H as _ <- <-. split; [discriminate|exact (One _ E1)]. }
  destruct docs as [|d ds].
  { injection H as _ <- <-. split; [discriminate|exact (One _ E1)]. }
  unfold bind at 1 in H. cbn [lift] in H.
  destruct (process_docs now st batch (d :: ds)) as [e|[st1 b1]] eqn:EP;
    cbn [lift raise ret] in H.
  { injection H as _ <- <-. split; [|exact (One _ E1)].
    destruct (process_docs_exc _ _ _ _ _ EP) as [-> | ->]; discriminate. }
  unfold bind in H.
  destruct (maybe_flush srv srv_index dry bs st1 b1 s1 t1) as [[s2 t2] r2] eqn:EF.
  destruct (flush_shape _ _ _ _ _ _ _ _ _ _ _ EF) as [E2 X2].
  destruct r2 as [e|[st2 b2]].
  { injection H as _ <- <-.
    split; [intros He; injection He as He; exact (X2 e eq_refl He)|].
    rewrite E2. exact (One _ E1). }
  replace (Z.of_nat j * bs + bs)%Z with (Z.of_nat (S j) * bs)%Z in H by lia.
  destruct (IH (S j) _ _ _ _ _ _ _ ltac:(lia) H) as [Hr (k & Ek & Hk)].
  split; [exact Hr|]. exists (S k). rewrite Ek, E2, E1, <- app_assoc.
  split; [reflexivity|].
  intros i Hi. destruct (Nat.eq_dec i j) as [->|Hne]; [exact Hlt|]. apply Hk. lia.
Qed.

Lemma run_skips srv srv_search srv_index now reclassify_all dry_run batch_size
    (s0 s' : srv) t' r :
  (1 <= batch_size)%Z ->
  run_classification srv srv_search srv_index now reclassify_all dry_run batch_size s0 []
    = (s', t', r) ->
  r <> inl NoFuel /\
  exists k, search_skips t' = 0%Z :: map (fun i => Z.of_nat i * batch_size)%Z (seq 0 k) /\
    forall i, (i < k)%nat ->
      (Z.of_nat i * batch_size < answer_count (srv_search s0 0 1 (negb reclassify_all)))%Z.
Proof.
  intros Hbs H. unfold run_classification in H. unfold bind at 1 in H.
  destruct (search_documents srv srv_search 0 1 (negb reclassify_all) s0 [])
    as [[s1 t1] r1] eqn:ES.
  destruct (search_documents_shape _ _ _ _ _ _ _ _ _ _ ES) as (-> & E1 & X1 & C1).
  cbn in E1.
  destruct r1 as [e|sr].
  { injection H as _ <- <-. rewrite (X1 e eq_refl). split; [discriminate|].
    exists O. split; [exact E1|lia]. }
  destruct sr as [|docs c]; cbn [unpack lift raise ret bind] in H.
  { injection H as _ <- <-. split; [discriminate|]. exists O. split; [exact E1|lia]. }
  rewrite <- (C1 docs c eq_refl).
  destruct (Z.eqb c 0).
  { injection H as _ <- <-. split; [discriminate|]. exists O. split; [exact E1|lia]. }
  unfold bind at 1 in H.
  destruct (pages srv srv_search srv_index now (S (Z.to_nat c)) (negb reclassify_all)
              dry_run batch_size c 0 [] stats0 s0 t1) as [[s2 t2] r2] eqn:EP.
  change 0%Z with (Z.of_nat 0 * batch_size)%Z in EP.
  assert (Hf : (Z.to_nat (c - Z.of_nat 0 * batch_size) < S (Z.to_nat c))%nat) by lia.
  destruct (pages_skips _ _ _ _ _ _ _ _ Hbs _ _ _ _ _ _ _ _ _ Hf EP)
    as [Hr (k & Ek & Hk)].
  rewrite E1 in Ek. cbn [app] in Ek.
  assert (Hk' : forall i, (i < k)%nat -> (Z.of_nat i * batch_size < c)%Z)
    by (intros i Hi; apply Hk; lia).
  destruct r2 as [e|[b st]].
  { injection H as _ <- <-.
    split; [intros He; injection He as ->; exact (Hr eq_refl)|].
    exists k. split; [exact Ek|exact Hk']. }
  destruct (negb dry_run && negb (Nat.eqb (length b) 0)); cbn [ret bind] in H.
  - unfold bind, update_documents_batch in H. destruct (srv_index s2 b) as [s3 resp].
    destruct (batch_result _ resp) as [e|[a f]] eqn:B; injection H as _ <- <-.
    + split; [intros He; injection He as He; exact (batch_result_exc _ _ _ B He)|].
      exists k. rewrite search_skips_app, Ek, app_nil_r. split; [reflexivity|exact Hk'].
    + split; [discriminate|]. exists k. rewrite search_skips_app, Ek, app_nil_r.
      split; [reflexivity|exact Hk'].
  - injection H as _ <- <-. split; [discriminate|]. exists k. split; [exact Ek|exact Hk'].
Qed.

(** X6: for [batch_size >= 1] the [while] loop always stops, whatever the
    service answers: the run never runs out of rounds, and after the count
    query its searches are at [skip = 0, batch_size, 2*batch_size, ...],
    each below the [@odata.count] of the count query's answer: no page is
    requested twice or passed over. *)
Theorem run_pages_consecutive srv srv_search srv_index now reclassify_all dry_run batch_size
    (s0 : srv) :
  (1 <= batch_size)%Z ->
  let res := run_classification srv srv_search srv_index now reclassify_all dry_run
                                batch_size s0 [] in
  snd res <> inl NoFuel /\
  exists k, search_skips (snd (fst res))
            = 0%Z :: map (fun i => Z.of_nat i * batch_size)%Z (seq 0 k) /\
    forall i, (i < k)%nat ->
      (Z.of_nat i * batch_size < answer_count (srv_search s0 0 1 (negb reclassify_all)))%Z.
Proof.
  intros Hbs res. subst res.
  destruct (run_classification _ _ _ _ _ _ _ s0 []) as [[s' t'] r] eqn:E.
  exact (run_skips _ _ _ _ _ _ _ _ _ _ _ Hbs E).
Qed.

Lemma run_pages_consecutive_witness :
  (1 <= 1)%Z /\
  let res := run_classification store store_search store_index "2026-01-01T00:00:00Z"
                                 false false 1 two_unclassified [] in
  snd res <> inl NoFuel /\
  exists k, search_skips (snd (fst res))
            = 0%Z :: map (fun i => Z.of_nat i * 1)%Z (seq 0 k) /\
    forall i, (i < k)%nat ->
      (Z.of_nat i * 1 < answer_count (store_search two_unclassified 0 1 (negb false)))%Z.
Proof.
  assert (H : (1 <= 1)%Z) by lia.
  split; [exact H|].
  exact (run_pages_consecutive store store_search store_index "2026-01-01T00:00:00Z"
           false false 1 two_unclassified H).
Defined.


(* ================================================================== *)
(** ** Statistics: lookup, ordering and failure behaviour              *)
(* ================================================================== *)

Ltac bool_facts :=
  repeat match goal with
  | H : String.eqb _ _ = true |- _ => apply String.eqb_eq in H; subst
  | H : Z.eqb _ _ = true |- _ => apply Z.eqb_eq in H; subst
  | H : Bool.eqb _ _ = true |- _ => apply Bool.eqb_prop in H; subst
  end.

Lemma py_eq_key_sym (a b : json) : py_eq_key a b = py_eq_key b a.
Proof.
  destruct a, b; simpl; try reflexivity;
    try apply String.eqb_sym; try apply Z.eqb_sym;
    repeat match goal with x : bool |- _ => destruct x end; reflexivity.
Qed.

Lemma py_eq_key_trans (a b c : json) :
  py_eq_key a b = true -> py_eq_key b c = true -> py_eq_key a c = true.
Proof.
  destruct a, b, c; simpl; intros H1 H2; try discriminate; bool_facts;
    try reflexivity; try apply String.eqb_refl; try apply Z.eqb_refl;
    try apply Bool.eqb_reflx;
    repeat match goal with b : bool |- _ => destruct b end;
    simpl in *; bool_facts; try discriminate; try reflexivity.
Qed.

Lemma dict_get_set (k k' v : json) (d : pydict) :
  dict_get k (dict_set k' v d) = if py_eq_key k' k then Some v else dict_get k d.
Proof.
  induction d as [|[k'' v''] rest IH]; simpl.
  - reflexivity.
  - destruct (py_eq_key k'' k') eqn:E1; simpl.
    + destruct (py_eq_key k' k) eqn:E2.
      * rewrite (py_eq_key_trans _ _ _ E1 E2). reflexivity.
      * destruct (py_eq_key k'' k) eqn:E3; [|reflexivity].
        rewrite py_eq_key_sym in E1.
        rewrite (py_eq_key_trans _ _ _ E1 E3) in E2. discriminate.
    + rewrite IH. destruct (py_eq_key k'' k) eqn:E3; [|reflexivity].
      destruct (py_eq_key k' k) eqn:E2; [|reflexivity].
      assert (py_eq_key k'' k' = true) by
        (apply (py_eq_key_trans _ k); [exact E3|rewrite py_eq_key_sym; exact E2]).
      congruence.
Qed.

Lemma facet_loop_lookup (items : list json) (d d' : pydict) (k : json) :
  facet_loop items d = inr d' ->
  dict_get k d' = match last_count k items with Some c => Some c | None => dict_get k d end.
Proof.
  revert d. induction items as [|f rest IH]; intros d H; simpl in H |- *.
  - injection H as <-. reflexivity.
  - destruct (subscript f "value") as [e|kv]; [discriminate|].
    destruct (subscript f "count") as [e|c]; [discriminate|].
    destruct (hashable kv); [|discriminate].
    rewrite (IH _ H), dict_get_set.
    destruct (last_count k rest); [reflexivity|].
    destruct (py_eq_key kv k); reflexivity.
Qed.

Lemma keyed_items_shape (d : pydict) (l : list (Z * (json * string))) :
  keyed_items d = inr l ->
  Forall2 (fun kv p => fst kv = fst (snd p) /\ neg_count (snd kv) = inr (fst p, snd (snd p))) d l.
Proof.
  revert l. induction d as [|[k v] rest IH]; intros l H; simpl in H.
  - injection H as <-. constructor.
  - destruct (neg_count v) as [e|[key shown]] eqn:Ev; [discriminate|].
    destruct (keyed_items rest) as [e|l']; [discriminate|].
    injection H as <-. constructor; [simpl; auto|]. apply IH. reflexivity.
Qed.

Lemma keyed_items_error (d : pydict) (e : sexc) :
  keyed_items d = inl e -> e = STypeError.
Proof.
  induction d as [|[k v] rest IH]; simpl; [discriminate|].
  destruct (neg_count v) as [e'|[key shown]] eqn:Ev.
  - intros H. injection H as <-. destruct v; simpl in Ev; try discriminate.
    all: injection Ev as <-; reflexivity.
  - destruct (keyed_items rest); [|discriminate]. intros H. injection H as ->. apply IH. reflexivity.
Qed.

Lemma keyed_items_fails (d : pydict) (k v : json) :
  In (k, v) d -> (forall z, v <> JNum z) -> (forall b, v <> JBool b) ->
  keyed_items d = inl STypeError.
Proof.
  intros Hin Hz Hb.
  destruct (keyed_items d) as [e|l] eqn:E.
  - rewrite (keyed_items_error _ _ E). reflexivity.
  - exfalso. apply keyed_items_shape in E.
    induction E as [|[k' v'] p rest l' [_ Hn] _ IH]; [destruct Hin|].
    destruct Hin as [Heq|Hin]; [|exact (IH Hin)].
    injection Heq as -> ->. simpl in Hn.
    destruct v; simpl in Hn; try discriminate; [apply (Hb b)|apply (Hz z)]; reflexivity.
Qed.

Lemma insert_by_perm {A : Type} (k : Z) (x : A) (l : list (Z * A)) :
  Permutation (insert_by k x l) ((k, x) :: l).
Proof.
  induction l as [|[k' y] rest IH]; simpl; [reflexivity|].
  destruct (Z.ltb k k'); [reflexivity|].
  rewrite IH. apply perm_swap.
Qed.

Lemma insert_by_sorted {A : Type} (k : Z) (x : A) (l : list (Z * A)) :
  Sorted (fun a b => (fst a <= fst b)%Z) l ->
  Sorted (fun a b => (fst a <= fst b)%Z) (insert_by k x l).
Proof.
  induction l as [|[k' y] rest IH]; simpl; intros Hs.
  - repeat constructor.
  - destruct (Z.ltb k k') eqn:E.
    + apply Z.ltb_lt in E. constructor; [exact Hs|constructor; simpl; lia].
    + apply Z.ltb_ge in E. apply Sorted_inv in Hs as [Hs Hh].
      constructor; [exact (IH Hs)|].
      destruct rest as [|[k'' y'] rest']; simpl.
      * constructor. simpl. lia.
      * destruct (Z.ltb k k''); constructor; simpl; [lia|].
        inversion Hh; subst. simpl in *. lia.
Qed.

Lemma insert_by_filter {A : Type} (k z : Z) (x : A) (l : list (Z * A)) :
  Sorted (fun a b => (fst a <= fst b)%Z) l ->
  List.filter (fun p => Z.eqb (fst p) z) (insert_by k x l)
  = List.filter (fun p => Z.eqb (fst p) z) l ++ (if Z.eqb k z then [(k, x)] else []).
Proof.
  induction l as [|[k' y] rest IH]; simpl; intros Hs.
  - destruct (Z.eqb k z); reflexivity.
  - destruct (Z.ltb k k') eqn:E.
    + apply Z.ltb_lt in E. simpl.
      destruct (Z.eqb k z) eqn:Ekz.
      * apply Z.eqb_eq in Ekz. subst z.
        apply Sorted_StronglySorted in Hs; [|intros a b c; lia].
        apply StronglySorted_inv in Hs as [_ Hall].
        assert (Hf : List.filter (fun p : Z * A => Z.eqb (fst p) k) ((k', y) :: rest) = []).
        { simpl. replace (Z.eqb k' k) with false by (symmetry; apply Z.eqb_neq; lia).
          clear IH. induction rest as [|q rest' IH']; simpl; [reflexivity|].
          inversion Hall as [|? ? Hq Hall']; subst.
          replace (Z.eqb (fst q) k) with false by (symmetry; apply Z.eqb_neq; simpl in Hq; lia).
          exact (IH' Hall'). }
        simpl in Hf. rewrite Hf. reflexivity.
      * rewrite app_nil_r. reflexivity.
    + apply Sorted_inv in Hs as [Hs _]. simpl.
      rewrite (IH Hs). destruct (Z.eqb k' z); reflexivity.
Qed.

Lemma sort_fold_props {A : Type} (l acc : list (Z * A)) :
  Sorted (fun a b => (fst a <= fst b)%Z) acc ->
  let s := fold_left (fun acc kx => insert_by (fst kx) (snd kx) acc) l acc in
  Sorted (fun a b => (fst a <= fst b)%Z) s /\ Permutation s (acc ++ l) /\
  forall z, List.filter (fun p => Z.eqb (fst p) z) s
            = List.filter (fun p => Z.eqb (fst p) z) acc ++ List.filter (fun p => Z.eqb (fst p) z) l.
Proof.
  revert acc. induction l as [|[k x] rest IH]; intros acc Hs; simpl.
  - rewrite app_nil_r. repeat split; [exact Hs|reflexivity|intros z; rewrite app_nil_r; reflexivity].
  - destruct (IH (insert_by k x acc) (insert_by_sorted k x acc Hs)) as (H1 & H2 & H3).
    repeat split.
    + exact H1.
    + rewrite H2, insert_by_perm. apply Permutation_cons_app. reflexivity.
    + intros z. rewrite H3, (insert_by_filter k z x acc Hs), <- app_assoc.
      simpl. destruct (Z.eqb k z); reflexivity.
Qed.

(** X7: a statistics query that does not answer 200 makes [show_stats]
    print exactly what it prints for a reachable, empty index (a count of
    0 and no facets), and raise nothing: the failure is silent. *)
Theorem show_stats_failure_silent (resp : http_json) :
  hj_status resp <> 200%Z ->
  show_stats resp = show_stats (mk_http_json 200 (Some (JObj [("@odata.count", JNum 0)])))
  /\ snd (show_stats resp) = None.
Proof.
  intros Hs. unfold show_stats, get_classification_stats.
  apply Z.eqb_neq in Hs. rewrite Hs. simpl. split; reflexivity.
Qed.

(** X8: when the facet comprehension of [get_classification_stats]
    succeeds on a list of facets, the count it keeps for a value is the
    count of the last facet whose value equals it under Python's [==]
    (so [True] and [1] share an entry), and a value no facet carries has
    none. *)
Theorem facet_dict_last_count (items : list json) (d : pydict) (k : json) :
  facet_dict (JArr items) = inr d -> dict_get k d = last_count k items.
Proof.
  unfold facet_dict. simpl. intros H.
  rewrite (facet_loop_lookup _ _ _ k H). destruct (last_count k items); reflexivity.
Qed.

(** X9: the stats listing order: [show_stats] keys every dict entry by
    minus its count, in dict order, and prints them sorted by that key
    (largest count first), each exactly once, entries with equal counts
    in dict order. *)
Theorem stats_items_order (d : pydict) (l : list (Z * (json * string))) :
  keyed_items d = inr l ->
  let s := sort_by_key l in
  Forall2 (fun kv p => fst kv = fst (snd p) /\ neg_count (snd kv) = inr (fst p, snd (snd p))) d l /\
  Sorted (fun a b => (fst a <= fst b)%Z) s /\ Permutation s l /\
  (forall z, List.filter (fun p => Z.eqb (fst p) z) s = List.filter (fun p => Z.eqb (fst p) z) l).
Proof.
  intros H s. split; [exact (keyed_items_shape d l H)|].
  exact (sort_fold_props l [] (Sorted_nil _)).
Qed.

(** X10: if a category facet's count is neither a number nor a boolean,
    [show_stats] raises [TypeError] right after printing the header, the
    total and the "By Category:" title: no category line is printed. *)
Theorem show_stats_bad_count (resp : http_json) (total : json) (bc bl : pydict) (k v : json) :
  get_classification_stats resp = inr (StatsDict total bc bl) ->
  In (k, v) bc -> (forall z, v <> JNum z) -> (forall b, v <> JBool b) ->
  show_stats resp
  = (stats_header ++ [PTotal total; PText (String "010" "By Category:")], Some STypeError).
Proof.
  intros Hg Hin Hz Hb. unfold show_stats. rewrite Hg. cbv zeta.
  unfold section_lines at 1, item_lines.
  rewrite (keyed_items_fails bc k v Hin Hz Hb).
  destruct bc; [destruct Hin|]. rewrite app_nil_r. reflexivity.
Qed.

Lemma fold_str_dict_set_fresh (acc u : list (string * pystr)) :
  NoDup (map fst (acc ++ u)) ->
  fold_left (fun acc kv => str_dict_set (fst kv) (snd kv) acc) u acc = acc ++ u.
Proof.
  revert acc. induction u as [|[k v] rest IH]; intros acc Hnd; simpl.
  - rewrite app_nil_r. reflexivity.
  - assert (Hs : str_dict_set k v acc = acc ++ [(k, v)]).
    { rewrite map_app in Hnd. simpl in Hnd.
      apply NoDup_app in Hnd as (_ & Hdis & _).
      assert (Hk : ~ In k (map fst acc)).
      { intros Hin. apply (Hdis k); [apply list_elem_of_In; exact Hin|left]. }
      clear Hdis IH. induction acc as [|[k' v'] acc' IHa]; simpl; [reflexivity|].
      simpl in Hk. destruct (String.eqb k' k) eqn:E.
      - apply String.eqb_eq in E. exfalso. apply Hk. left. exact E.
      - rewrite IHa; [reflexivity|]. intros Hin. apply Hk. right. exact Hin. }
    rewrite Hs, IH; [rewrite <- app_assoc; reflexivity|].
    rewrite <- app_assoc. exact Hnd.
Qed.

Lemma doc_update_body (now : string) (d : doc) (u : update) :
  doc_update now d = inr u -> merge_item u = ("@search.action", Some "merge"%string) :: u.
Proof.
  intros Hu. unfold merge_item.
  rewrite fold_str_dict_set_fresh; [reflexivity|].
  unfold doc_update in Hu.
  destruct (classify_document _ _) as [category access].
  destruct (extract_community_name _) as [e|extracted]; [discriminate|].
  destruct (if startswith category "owner_" then _ else _) as [e|owner]; [discriminate|].
  injection Hu as <-.
  destruct (truthy (py_or extracted _)), (truthy owner); simpl;
    apply (bool_decide_unpack _); vm_compute; reflexivity.
Qed.

(** X11: every item of the [value] list that [update_documents_batch]
    posts for a batch built by the per-document loop is the update as
    built, unchanged and in order, behind ["@search.action": "merge"]: no
    update field overrides the action or another field. *)
Theorem batch_body_merge (now : string) (st st' : stats) (ds : list doc) (batch : list update) :
  process_docs now st [] ds = inr (st', batch) ->
  batch_body batch = map (fun u => ("@search.action", Some "merge"%string) :: u) batch.
Proof.
  intros H.
  assert (Hall : forall batch0, process_docs now st batch0 ds = inr (st', batch) ->
                 (forall u, In u batch0 -> exists d, doc_update now d = inr u) ->
                 forall u, In u batch -> exists d, doc_update now d = inr u).
  { clear H. revert st. induction ds as [|d rest IH]; intros st0 batch0 Hp Hb0; simpl in Hp.
    - injection Hp as _ <-. exact Hb0.
    - destruct (process_doc now st0 batch0 d) as [e|[st1 batch1]] eqn:E; [discriminate|].
      apply (IH st1 batch1 Hp).
      destruct (process_doc_appends now st0 batch0 d st1 batch1 E) as (u1 & Hu1 & ->).
      intros u Hin. apply in_app_or in Hin as [Hin|[<-|[]]]; [exact (Hb0 u Hin)|].
      exists d. exact Hu1. }
  specialize (Hall [] H (fun u Hin => match Hin with end)).
  unfold batch_body. apply map_ext_in. intros u Hin.
  destruct (Hall u Hin) as [d Hd]. exact (doc_update_body now d u Hd).
Qed.


Lemma show_stats_failure_silent_witness :
  hj_status (mk_http_json 503 None) <> 200%Z /\
  (show_stats (mk_http_json 503 None)
   = show_stats (mk_http_json 200 (Some (JObj [("@odata.count", JNum 0)])))
   /\ snd (show_stats (mk_http_json 503 None)) = None).
Proof.
  split; [simpl; lia|].
  apply (show_stats_failure_silent (mk_http_json 503 None)). simpl. lia.
Defined.

Lemma facet_dict_last_count_witness :
  facet_dict (JArr [JObj [("value", JStr "a"); ("count", JNum 3)];
                    JObj [("value", JBool true); ("count", JNum 2)];
                    JObj [("value", JStr "a"); ("count", JNum 5)];
                    JObj [("value", JNum 1); ("count", JNum 9)]])
  = inr [(JStr "a", JNum 5); (JBool true, JNum 9)] /\
  dict_get (JNum 1) [(JStr "a", JNum 5); (JBool true, JNum 9)]
  = last_count (JNum 1) [JObj [("value", JStr "a"); ("count", JNum 3)];
                         JObj [("value", JBool true); ("count", JNum 2)];
                         JObj [("value", JStr "a"); ("count", JNum 5)];
                         JObj [("value", JNum 1); ("count", JNum 9)]].
Proof.
  split; [vm_compute; reflexivity|].
  apply facet_dict_last_count. vm_compute. reflexivity.
Defined.

Lemma stats_items_order_witness :
  keyed_items [(JStr "a", JNum 3); (JNull, JNum 7); (JStr "b", JNum 3)]
  = inr [((-3)%Z, (JStr "a", "3"%string)); ((-7)%Z, (JNull, "7"%string));
         ((-3)%Z, (JStr "b", "3"%string))] /\
  let s := sort_by_key [((-3)%Z, (JStr "a", "3"%string)); ((-7)%Z, (JNull, "7"%string));
                        ((-3)%Z, (JStr "b", "3"%string))] in
  Forall2 (fun kv p => fst kv = fst (snd p) /\ neg_count (snd kv) = inr (fst p, snd (snd p)))
    [(JStr "a", JNum 3); (JNull, JNum 7); (JStr "b", JNum 3)]
    [((-3)%Z, (JStr "a", "3"%string)); ((-7)%Z, (JNull, "7"%string));
     ((-3)%Z, (JStr "b", "3"%string))] /\
  Sorted (fun a b => (fst a <= fst b)%Z) s /\
  Permutation s [((-3)%Z, (JStr "a", "3"%string)); ((-7)%Z, (JNull, "7"%string));
                 ((-3)%Z, (JStr "b", "3"%string))] /\
  (forall z, List.filter (fun p => Z.eqb (fst p) z) s
             = List.filter (fun p => Z.eqb (fst p) z)
                 [((-3)%Z, (JStr "a", "3"%string)); ((-7)%Z, (JNull, "7"%string));
                  ((-3)%Z, (JStr "b", "3"%string))]).
Proof.
  split; [vm_compute; reflexivity|].
  apply stats_items_order. vm_compute. reflexivity.
Defined.

Lemma show_stats_bad_count_witness :
  let r := mk_http_json 200 (Some (JObj [("@odata.count", JNum 12);
             ("@search.facets", JObj [("document_category",
                JArr [JObj [("value", JStr "a"); ("count", JNum 3)];
                      JObj [("value", JNull); ("count", JNum 7)];
                      JObj [("value", JStr "b"); ("count", JStr "3")]]);
                ("access_level", JArr [])])])) in
  get_classification_stats r
  = inr (StatsDict (JNum 12) [(JStr "a", JNum 3); (JNull, JNum 7); (JStr "b", JStr "3")] []) /\
  show_stats r = (stats_header ++ [PTotal (JNum 12); PText (String "010" "By Category:")],
                  Some STypeError).
Proof.
  intros r. split; [vm_compute; reflexivity|].
  apply (show_stats_bad_count r (JNum 12)
           [(JStr "a", JNum 3); (JNull, JNum 7); (JStr "b", JStr "3")] [] (JStr "b") (JStr "3")).
  - vm_compute. reflexivity.
  - simpl. auto.
  - intros z. discriminate.
  - intros b. discriminate.
Defined.

Lemma batch_body_merge_witness :
  process_docs "2024-01-01T00:00:00Z" stats0 [] [minutes_doc "1" "January Minutes.pdf"]
  = inr (mk_stats 1 0 0 (bump "community_minutes" ∅) (bump "community_public" ∅),
         [[("id", Some "1"%string); ("document_category", Some "community_minutes"%string);
           ("access_level", Some "community_public"%string);
           ("classified_at", Some "2024-01-01T00:00:00Z"%string);
           ("community_name", Some "Oak Hill"%string)]]) /\
  batch_body [[("id", Some "1"%string); ("document_category", Some "community_minutes"%string);
               ("access_level", Some "community_public"%string);
               ("classified_at", Some "2024-01-01T00:00:00Z"%string);
               ("community_name", Some "Oak Hill"%string)]]
  = map (fun u => ("@search.action", Some "merge"%string) :: u)
      [[("id", Some "1"%string); ("document_category", Some "community_minutes"%string);
        ("access_level", Some "community_public"%string);
        ("classified_at", Some "2024-01-01T00:00:00Z"%string);
        ("community_name", Some "Oak Hill"%string)]].
Proof.
  split; [vm_compute; reflexivity|].
  apply (batch_body_merge "2024-01-01T00:00:00Z" stats0
           (mk_stats 1 0 0 (bump "community_minutes" ∅) (bump "community_public" ∅))
           [minutes_doc "1" "January Minutes.pdf"]).
  vm_compute. reflexivity.
Defined.

